(** * Sumula lifecycle of rei-da-derivada

    A shallow embedding of [api/views/views_sumulas.py]: the object
    permission gates, the create, update/close, add-referee and player
    views, over an explicit relational store.  The views are written
    against the interface of their base class [BaseSumulaView]
    ([api/views/base_views.py]) and against the pieces of Django they call
    ([has_perm] and the coercion of the values given to a lookup or to a
    text column). *)

From Stdlib Require Import ZArith List String Bool Lia DecimalString.
Import ListNotations.
Local Open Scope string_scope.
Local Open Scope list_scope.
Local Open Scope Z_scope.

Set Implicit Arguments.
Local Set Warnings "-register-all".

(** ** Request payloads: parsed JSON, with the Python operations the views use *)

Inductive json : Type :=
| JNull
| JBool (b : bool)
| JInt (n : Z)
| JStr (s : string)
| JList (items : list json)
| JDict (fields : list (string * json)).

(** [d.get(k)] on the fields of a dict. *)
Fixpoint dict_get (k : string) (fields : list (string * json)) : option json :=
  match fields with
  | [] => None
  | (k', v) :: rest => if (k =? k')%string then Some v else dict_get k rest
  end.

(** Python truthiness: [if not v]. *)
Definition truthy (v : json) : bool :=
  match v with
  | JNull => false
  | JBool b => b
  | JInt n => negb (n =? 0)
  | JStr s => negb (s =? "")%string
  | JList items => match items with [] => false | _ => true end
  | JDict fields => match fields with [] => false | _ => true end
  end.

Fixpoint substring_of (p s : string) : bool :=
  if String.prefix p s then true
  else match s with
       | EmptyString => false
       | String _ s' => substring_of p s'
       end.

Definition is_str (k : string) (v : json) : bool :=
  match v with JStr s => (s =? k)%string | _ => false end.

(** [k in data]; [None] is the TypeError Python raises on a value that is
    not a container. *)
Definition py_in (k : string) (data : json) : option bool :=
  match data with
  | JDict fields => Some (match dict_get k fields with Some _ => true | None => false end)
  | JList items => Some (existsb (is_str k) items)
  | JStr s => Some (substring_of k s)
  | _ => None
  end.

(** [data[k]] with a string key; [None] is the KeyError or TypeError. *)
Definition subscript (data : json) (k : string) : option json :=
  match data with
  | JDict fields => dict_get k fields
  | _ => None
  end.

(** [data.get(k)]: [None] is the AttributeError on a value that is not a
    dict, [Some JNull] the missing key. *)
Definition py_get (data : json) (k : string) : option json :=
  match data with
  | JDict fields => Some (match dict_get k fields with Some v => v | None => JNull end)
  | _ => None
  end.

(** ** The store *)

Record User := {
  user_id : Z;
  email : string;
  first_name : string;
  last_name : string
}.

Record Event := {
  event_id : Z;
  event_name : string;
  admin_email : string
}.

Record Staff := {
  staff_id : Z;
  staff_user : Z;
  staff_event : Z;
  is_manager : bool
}.

Record Player := {
  player_id : Z;
  player_user : Z;
  player_event : Z;
  total_score : Z;
  registration_email : string;
  is_imortal : bool
}.

(** The two sumula models are parallel tables with the same columns. *)
Inductive Variant : Type := Classificatoria | Imortal.

Record Sumula := {
  sumula_id : Z;
  sumula_event : Z;
  name : string;
  active : bool
}.

(** A score row has one nullable foreign key per sumula table. *)
Record PlayerScore := {
  score_id : Z;
  score_player : Z;
  score_event : Z;
  sumula_classificatoria : option Z;
  sumula_imortal : option Z;
  points : Z
}.

(** Modelled from the spec: [api/models.py] is not part of the sources; the
    tables and columns are those of the data model section and the ones
    the views read and write.  [referee_classificatoria] and
    [referee_imortal] are the many-to-many [referee] relations, as
    (sumula id, staff id) rows. *)
Record DB := {
  users : list User;
  events : list Event;
  staffs : list Staff;
  players : list Player;
  sumulas_classificatoria : list Sumula;
  sumulas_imortal : list Sumula;
  referee_classificatoria : list (Z * Z);
  referee_imortal : list (Z * Z);
  player_scores : list PlayerScore
}.

Definition variant_eqb (a b : Variant) : bool :=
  match a, b with
  | Classificatoria, Classificatoria => true
  | Imortal, Imortal => true
  | _, _ => false
  end.

(** The foreign key of a score row to the table [v]. *)
Definition sumula_fk (v : Variant) (ps : PlayerScore) : option Z :=
  match v with
  | Classificatoria => sumula_classificatoria ps
  | Imortal => sumula_imortal ps
  end.

Definition sumulas (v : Variant) (db : DB) : list Sumula :=
  match v with
  | Classificatoria => sumulas_classificatoria db
  | Imortal => sumulas_imortal db
  end.

Definition referees (v : Variant) (db : DB) : list (Z * Z) :=
  match v with
  | Classificatoria => referee_classificatoria db
  | Imortal => referee_imortal db
  end.

Definition set_sumulas (v : Variant) (rows : list Sumula) (db : DB) : DB :=
  match v with
  | Classificatoria =>
      {| users := users db; events := events db; staffs := staffs db;
         players := players db;
         sumulas_classificatoria := rows;
         sumulas_imortal := sumulas_imortal db;
         referee_classificatoria := referee_classificatoria db;
         referee_imortal := referee_imortal db;
         player_scores := player_scores db |}
  | Imortal =>
      {| users := users db; events := events db; staffs := staffs db;
         players := players db;
         sumulas_classificatoria := sumulas_classificatoria db;
         sumulas_imortal := rows;
         referee_classificatoria := referee_classificatoria db;
         referee_imortal := referee_imortal db;
         player_scores := player_scores db |}
  end.

Definition set_referees (v : Variant) (rows : list (Z * Z)) (db : DB) : DB :=
  match v with
  | Classificatoria =>
      {| users := users db; events := events db; staffs := staffs db;
         players := players db;
         sumulas_classificatoria := sumulas_classificatoria db;
         sumulas_imortal := sumulas_imortal db;
         referee_classificatoria := rows;
         referee_imortal := referee_imortal db;
         player_scores := player_scores db |}
  | Imortal =>
      {| users := users db; events := events db; staffs := staffs db;
         players := players db;
         sumulas_classificatoria := sumulas_classificatoria db;
         sumulas_imortal := sumulas_imortal db;
         referee_classificatoria := referee_classificatoria db;
         referee_imortal := rows;
         player_scores := player_scores db |}
  end.

Definition set_player_scores (rows : list PlayerScore) (db : DB) : DB :=
  {| users := users db; events := events db; staffs := staffs db;
     players := players db;
     sumulas_classificatoria := sumulas_classificatoria db;
     sumulas_imortal := sumulas_imortal db;
     referee_classificatoria := referee_classificatoria db;
     referee_imortal := referee_imortal db;
     player_scores := rows |}.

Definition set_players (rows : list Player) (db : DB) : DB :=
  {| users := users db; events := events db; staffs := staffs db;
     players := rows;
     sumulas_classificatoria := sumulas_classificatoria db;
     sumulas_imortal := sumulas_imortal db;
     referee_classificatoria := referee_classificatoria db;
     referee_imortal := referee_imortal db;
     player_scores := player_scores db |}.

(** *** The ORM calls of the views

    A table is the list of its rows in insertion order, which is the
    primary-key order that [.first()] uses. *)

(** The next value of an auto-increment key. *)
Definition next_id (ids : list Z) : Z := 1 + fold_right Z.max 0 ids.

(** [Model.objects.create(event=event, name=name)] on a sumula table:
    [active] takes its default, true at creation. *)
Definition Sumula_objects_create (v : Variant) (event : Event) (nm : string)
    (db : DB) : Sumula * DB :=
  let row := {| sumula_id := next_id (map sumula_id (sumulas v db));
                sumula_event := event_id event;
                name := nm;
                active := true |} in
  (row, set_sumulas v (sumulas v db ++ [row]) db).

(** [Model.objects.filter(id=pk).first()] on a sumula table. *)
Definition Sumula_objects_filter_id_first (v : Variant) (pk : Z) (db : DB)
    : option Sumula :=
  find (fun s => sumula_id s =? pk) (sumulas v db).

(** [Staff.objects.filter(user=user, event=event).first()]. *)
Definition Staff_objects_filter_first (u : User) (event : Event) (db : DB)
    : option Staff :=
  find (fun st => (staff_user st =? user_id u) && (staff_event st =? event_id event))
       (staffs db).

(** [Player.objects.filter(user=user, event=event).first()]. *)
Definition Player_objects_filter_first (u : User) (event : Event) (db : DB)
    : option Player :=
  find (fun p => (player_user p =? user_id u) && (player_event p =? event_id event))
       (players db).

(** [sumula.referee.all()], as staff ids. *)
Definition referee_all (v : Variant) (s : Sumula) (db : DB) : list Z :=
  map snd (filter (fun r => fst r =? sumula_id s) (referees v db)).

(** [sumula.referee.add(staff)]: a relation row that exists is not added
    twice. *)
Definition referee_add (v : Variant) (s : Sumula) (st : Staff) (db : DB) : DB :=
  if existsb (Z.eqb (staff_id st)) (referee_all v s db) then db
  else set_referees v (referees v db ++ [(sumula_id s, staff_id st)]) db.

(** [PlayerScore.objects.filter(player=player, sumula_<variant>__active=True)]:
    the join keeps the score rows whose sumula of that table is active. *)
Definition PlayerScore_objects_filter_active (v : Variant) (p : Player) (db : DB)
    : list PlayerScore :=
  filter (fun ps =>
            (score_player ps =? player_id p)
            && match sumula_fk v ps with
               | Some pk =>
                   match Sumula_objects_filter_id_first v pk db with
                   | Some s => active s
                   | None => false
                   end
               | None => false
               end)
         (player_scores db).

(** ** Requests and responses *)

Record Request := {
  method : string;
  user : User;
  query_params : list (string * string);
  data : json
}.

Record Response := {
  status : Z;
  body : json
}.

(** Modelled from the spec: [handle_400_error] of [api/utils.py] is not
    part of the sources; the error shape is an object with the message
    under [errors], with status 400. *)
Definition handle_400_error (msg : string) : Response :=
  {| status := 400; body := JDict [("errors", JStr msg)] |}.

(** What the framework answers when [check_object_permissions] raises
    [PermissionDenied]. *)
Definition permission_denied : Response :=
  {| status := 403;
     body := JDict [("detail", JStr "You do not have permission to perform this action.")] |}.

(** What the framework answers to an exception no handler catches. *)
Definition server_error : Response :=
  {| status := 500; body := JNull |}.

Definition SUMULA_IS_CLOSED_ERROR_MESSAGE : string :=
  "Súmula já encerrada só pode ser editada por um gerente ou adminstrador!".

(** A call either returns or raises; [msg] is [str(e)]. *)
Inductive outcome (A : Type) : Type :=
| Returns (a : A)
| Raises (msg : string).
Arguments Raises {A} msg.

(** ** Collaborators that are not in [views_sumulas.py] *)

(** The Django calls the views depend on: [user.has_perm(perm, obj)], the
    coercion of a lookup value to an integer primary key and the coercion
    of a value stored in a text column ([None] when they raise). *)
Class Django : Type := {
  has_perm : User -> string -> Event -> bool;
  pk_to_python : json -> option Z;
  char_to_python : json -> option string
}.

(** The methods and constants the views inherit or import from
    [api/views/base_views.py].  The validators and [get_object] read the
    store; [create_players_score], [add_referees] and [update_sumula]
    write it, and what they wrote stays when they raise. *)
Class BaseSumulaView : Type := {
  SUMULA_NOT_FOUND_ERROR_MESSAGE : string;
  SUMULA_ID_NOT_PROVIDED_ERROR_MESSAGE : string;
  validate_request_data_dict : json -> bool;
  validate_players : DB -> json -> bool;
  validate_referees : DB -> json -> bool;
  validate_players_score : DB -> json -> bool;
  get_object : Request -> DB -> outcome Event;
  get_sumulas : Event -> option bool -> DB -> list Sumula * list Sumula;
  create_players_score : json -> Variant -> Sumula -> Event -> DB -> outcome unit * DB;
  add_referees : Variant -> Sumula -> Event -> json -> DB -> outcome unit * DB;
  validate_if_staff_is_sumula_referee :
    Request -> Variant -> Sumula -> Event -> DB -> outcome Staff;
  update_sumula : Request -> Variant -> Sumula -> Event -> DB -> outcome unit * DB
}.

(** ** Permission classes *)

Module HasSumulaPermission.
Section Permission.
Context {D : Django}.

Definition has_object_permission (request : Request) (obj : Event) : bool :=
  if (method request =? "POST")%string then
    has_perm (user request) "api.add_sumula_event" obj
  else if (method request =? "GET")%string then
    has_perm (user request) "api.view_sumula_event" obj
  else if (method request =? "PUT")%string then
    has_perm (user request) "api.change_sumula_event" obj
  else if (method request =? "DELETE")%string then
    has_perm (user request) "api.delete_sumula_event" obj
  else true.
End Permission.
End HasSumulaPermission.

Module GetSumulaForPlayerPermission.
Section Permission.
Context {D : Django}.

Definition has_object_permission (request : Request) (obj : Event) : bool :=
  if (method request =? "GET")%string then
    has_perm (user request) "api.view_event" obj
  else false.
End Permission.
End GetSumulaForPlayerPermission.

(** [IsAuthenticated] keeps the default [has_object_permission] of
    [BasePermission]. *)
Module IsAuthenticated.
Definition has_object_permission (request : Request) (obj : Event) : bool := true.
End IsAuthenticated.

(** [check_object_permissions]: [true] when every permission class of the
    view lets the object through, [false] when one raises the denial. *)
Definition check_object_permissions
    (permission_classes : list (Request -> Event -> bool))
    (request : Request) (obj : Event) : bool :=
  forallb (fun has_object_permission => has_object_permission request obj)
          permission_classes.

(** ** Serializers *)

Definition UserSerializer (u : User) : json :=
  JDict [("id", JInt (user_id u));
         ("first_name", JStr (first_name u));
         ("last_name", JStr (last_name u))].

Definition user_of (uid : Z) (db : DB) : json :=
  match find (fun u => user_id u =? uid) (users db) with
  | Some u => UserSerializer u
  | None => JNull
  end.

Definition PlayerSerializer (db : DB) (p : Player) : json :=
  JDict [("id", JInt (player_id p));
         ("total_score", JInt (total_score p));
         ("registration_email", JStr (registration_email p));
         ("event", JInt (player_event p));
         ("user", user_of (player_user p) db)].

Definition player_of (pid : Z) (db : DB) : json :=
  match find (fun p => player_id p =? pid) (players db) with
  | Some p => PlayerSerializer db p
  | None => JNull
  end.

Definition PlayerScoreSerializerForSumula (db : DB) (ps : PlayerScore) : json :=
  JDict [("id", JInt (score_id ps));
         ("points", JInt (points ps));
         ("player", player_of (score_player ps) db)].

(** The [scores] of a sumula: the score rows that point to it. *)
Definition scores (v : Variant) (s : Sumula) (db : DB) : list PlayerScore :=
  filter (fun ps => match sumula_fk v ps with
                    | Some pk => pk =? sumula_id s
                    | None => false
                    end)
         (player_scores db).

Definition referee_of (sid : Z) (db : DB) : json :=
  match find (fun st => staff_id st =? sid) (staffs db) with
  | Some st => user_of (staff_user st) db
  | None => JNull
  end.

(** Modelled from the spec: [SumulaClassificatoriaSerializer] and
    [SumulaImortalSerializer] are not part of the sources; the staff view
    has the fields of [SumulaSerializer]: id, active, referee, name and
    players_score, each score with its points and player. *)
Definition SumulaVariantSerializer (v : Variant) (db : DB) (s : Sumula) : json :=
  JDict [("id", JInt (sumula_id s));
         ("active", JBool (active s));
         ("referee", JList (map (fun sid => referee_of sid db) (referee_all v s db)));
         ("name", JStr (name s));
         ("players_score", JList (map (PlayerScoreSerializerForSumula db) (scores v s db)))].

(** Modelled from the spec: the serializer of the listing views is not
    part of the sources; it carries the two lists of staff views. *)
Definition SumulaSerializer (rows_classificatoria rows_imortal : list Sumula)
    (db : DB) : json :=
  JDict [("sumula_classificatoria",
          JList (map (SumulaVariantSerializer Classificatoria db) rows_classificatoria));
         ("sumula_imortal",
          JList (map (SumulaVariantSerializer Imortal db) rows_imortal))].

(** Modelled from the spec: [SumulaClassificatoriaForPlayerSerializer] and
    [SumulaImortalForPlayerSerializer] are not part of the sources; the
    player view exposes identity, name, active flag, referees and roster
    membership, and no score. *)
Definition PlayerScoreForPlayerSerializer (db : DB) (ps : PlayerScore) : json :=
  JDict [("id", JInt (score_id ps));
         ("player", player_of (score_player ps) db)].

Definition SumulaForPlayerSerializer (v : Variant) (db : DB) (s : Sumula) : json :=
  JDict [("id", JInt (sumula_id s));
         ("active", JBool (active s));
         ("referee", JList (map (fun sid => referee_of sid db) (referee_all v s db)));
         ("name", JStr (name s));
         ("players_score", JList (map (PlayerScoreForPlayerSerializer db) (scores v s db)))].

(** Whether a field called [k] occurs anywhere in a value. *)
Fixpoint has_field (k : string) (v : json) : bool :=
  match v with
  | JList items =>
      (fix any (l : list json) : bool :=
         match l with
         | [] => false
         | x :: r => has_field k x || any r
         end) items
  | JDict fields =>
      (fix any (l : list (string * json)) : bool :=
         match l with
         | [] => false
         | (k', x) :: r => (k' =? k)%string || has_field k x || any r
         end) fields
  | _ => false
  end.

(** [all(field in data for field in fields)]; [None] when [in] raises. *)
Fixpoint all_in (fields : list string) (d : json) : option bool :=
  match fields with
  | [] => Some true
  | k :: rest =>
      match py_in k d with
      | None => None
      | Some false => Some false
      | Some true => all_in rest d
      end
  end.

(** ** The views of [views_sumulas.py] *)

Definition OK (b : json) : Response := {| status := 200; body := b |}.
Definition CREATED (b : json) : Response := {| status := 201; body := b |}.

Module GetSumulasView.
Section View.
Context {D : Django} {B : BaseSumulaView}.

Definition permission_classes : list (Request -> Event -> bool) :=
  [IsAuthenticated.has_object_permission; HasSumulaPermission.has_object_permission].

Definition get (request : Request) (db : DB) : Response * DB :=
  match get_object request db with
  | Raises e => (handle_400_error e, db)
  | Returns event =>
      if negb (check_object_permissions permission_classes request event)
      then (permission_denied, db)
      else
        let '(rows_imortal, rows_classificatoria) := get_sumulas event None db in
        (OK (SumulaSerializer rows_classificatoria rows_imortal db), db)
  end.
End View.
End GetSumulasView.

Module SumulaClassificatoriaView.
Section View.
Context {D : Django} {B : BaseSumulaView}.

Definition permission_classes : list (Request -> Event -> bool) :=
  [IsAuthenticated.has_object_permission; HasSumulaPermission.has_object_permission].

Definition post (request : Request) (db : DB) : Response * DB :=
  let invalid := (handle_400_error "Dados inválidos!", db) in
  if negb (validate_request_data_dict (data request)) then invalid else
  match py_in "name" (data request) with
  | None => (server_error, db)
  | Some false => invalid
  | Some true =>
  if negb (validate_players db (data request)) then invalid else
  if negb (validate_referees db (data request)) then invalid else
  match get_object request db with
  | Raises e => (handle_400_error e, db)
  | Returns event =>
  if negb (check_object_permissions permission_classes request event)
  then (permission_denied, db) else
  match subscript (data request) "name", subscript (data request) "players" with
  | Some nm, Some players =>
  match char_to_python nm with
  | None => (server_error, db)
  | Some nm =>
  let '(sumula, db) := Sumula_objects_create Classificatoria event nm db in
  match create_players_score players Classificatoria sumula event db with
  | (Raises e, db) => (handle_400_error e, db)
  | (Returns _, db) =>
  match subscript (data request) "referees" with
  | None => (server_error, db)
  | Some referees =>
  match add_referees Classificatoria sumula event referees db with
  | (Raises _, db) => (server_error, db)
  | (Returns _, db) =>
      (CREATED (SumulaVariantSerializer Classificatoria db sumula), db)
  end end end end
  | _, _ => (server_error, db)
  end end end.

Definition put (request : Request) (db : DB) : Response * DB :=
  let required_fields := ["id"; "name"; "description"] in
  let invalid := (handle_400_error "Dados inválidos!", db) in
  if negb (validate_request_data_dict (data request)) then invalid else
  match all_in required_fields (data request) with
  | None => (server_error, db)
  | Some false => invalid
  | Some true =>
  if negb (validate_players_score db (data request))
  then (handle_400_error "Dados Invalidos!", db) else
  match subscript (data request) "id" with
  | None => (server_error, db)
  | Some sumula_id =>
  if negb (truthy sumula_id)
  then (handle_400_error SUMULA_ID_NOT_PROVIDED_ERROR_MESSAGE, db) else
  match pk_to_python sumula_id with
  | None => (server_error, db)
  | Some pk =>
  match Sumula_objects_filter_id_first Classificatoria pk db with
  | None => (handle_400_error SUMULA_NOT_FOUND_ERROR_MESSAGE, db)
  | Some sumula =>
  match get_object request db with
  | Raises e => (handle_400_error e, db)
  | Returns event =>
  if negb (check_object_permissions permission_classes request event)
  then (permission_denied, db) else
  let is_admin := (email (user request) =? admin_email event)%string in
  let update :=
    match update_sumula request Classificatoria sumula event db with
    | (Raises e, db) => (handle_400_error e, db)
    | (Returns _, db) => (OK JNull, db)
    end in
  if negb is_admin then
    match validate_if_staff_is_sumula_referee request Classificatoria sumula event db with
    | Raises e => (handle_400_error e, db)
    | Returns staff =>
        if negb (active sumula) && negb (is_manager staff)
        then (handle_400_error SUMULA_IS_CLOSED_ERROR_MESSAGE, db)
        else update
    end
  else update
  end end end end end.
End View.
End SumulaClassificatoriaView.

Module SumulaImortalView.
Section View.
Context {D : Django} {B : BaseSumulaView}.

Definition permission_classes : list (Request -> Event -> bool) :=
  [IsAuthenticated.has_object_permission; HasSumulaPermission.has_object_permission].

Definition post (request : Request) (db : DB) : Response * DB :=
  let invalid := (handle_400_error "Dados inválidos!", db) in
  if negb (validate_request_data_dict (data request)) then invalid else
  match py_in "name" (data request) with
  | None => (server_error, db)
  | Some false => invalid
  | Some true =>
  if negb (validate_players db (data request)) then invalid else
  if negb (validate_referees db (data request)) then invalid else
  match get_object request db with
  | Raises e => (handle_400_error e, db)
  | Returns event =>
  if negb (check_object_permissions permission_classes request event)
  then (permission_denied, db) else
  match subscript (data request) "players", subscript (data request) "name" with
  | Some players, Some nm =>
  match char_to_python nm with
  | None => (server_error, db)
  | Some nm =>
  let '(sumula, db) := Sumula_objects_create Imortal event nm db in
  match create_players_score players Imortal sumula event db with
  | (Raises e, db) => (handle_400_error e, db)
  | (Returns _, db) =>
  match subscript (data request) "referees" with
  | None => (server_error, db)
  | Some referees =>
  match add_referees Imortal sumula event referees db with
  | (Raises _, db) => (server_error, db)
  | (Returns _, db) =>
      (CREATED (SumulaVariantSerializer Imortal db sumula), db)
  end end end end
  | _, _ => (server_error, db)
  end end end.

Definition put (request : Request) (db : DB) : Response * DB :=
  let required_fields := ["id"; "name"; "description"] in
  let invalid := (handle_400_error "Dados inválidos!", db) in
  if negb (validate_request_data_dict (data request)) then invalid else
  match all_in required_fields (data request) with
  | None => (server_error, db)
  | Some false => invalid
  | Some true =>
  match subscript (data request) "id" with
  | None => (server_error, db)
  | Some sumula_id =>
  if negb (truthy sumula_id)
  then (handle_400_error SUMULA_ID_NOT_PROVIDED_ERROR_MESSAGE, db) else
  match pk_to_python sumula_id with
  | None => (server_error, db)
  | Some pk =>
  match Sumula_objects_filter_id_first Imortal pk db with
  | None => (handle_400_error SUMULA_NOT_FOUND_ERROR_MESSAGE, db)
  | Some sumula =>
  match get_object request db with
  | Raises e => (handle_400_error e, db)
  | Returns event =>
  if negb (check_object_permissions permission_classes request event)
  then (permission_denied, db) else
  let is_admin := (email (user request) =? admin_email event)%string in
  let update :=
    match update_sumula request Imortal sumula event db with
    | (Raises e, db) => (handle_400_error e, db)
    | (Returns _, db) => (OK JNull, db)
    end in
  if negb is_admin then
    match validate_if_staff_is_sumula_referee request Imortal sumula event db with
    | Raises e => (handle_400_error e, db)
    | Returns staff =>
        if negb (active sumula) && negb (is_manager staff)
        then (handle_400_error SUMULA_IS_CLOSED_ERROR_MESSAGE, db)
        else update
    end
  else update
  end end end end end.
End View.
End SumulaImortalView.

Module ActiveSumulaView.
Section View.
Context {D : Django} {B : BaseSumulaView}.

Definition permission_classes : list (Request -> Event -> bool) :=
  [IsAuthenticated.has_object_permission; HasSumulaPermission.has_object_permission].

Definition get (request : Request) (db : DB) : Response * DB :=
  match get_object request db with
  | Raises e => (handle_400_error e, db)
  | Returns event =>
      if negb (check_object_permissions permission_classes request event)
      then (permission_denied, db)
      else
        let '(rows_imortal, rows_classificatoria) := get_sumulas event (Some true) db in
        (OK (SumulaSerializer rows_classificatoria rows_imortal db), db)
  end.
End View.
End ActiveSumulaView.

Module FinishedSumulaView.
Section View.
Context {D : Django} {B : BaseSumulaView}.

Definition permission_classes : list (Request -> Event -> bool) :=
  [IsAuthenticated.has_object_permission; HasSumulaPermission.has_object_permission].

Definition get (request : Request) (db : DB) : Response * DB :=
  match get_object request db with
  | Raises e => (handle_400_error e, db)
  | Returns event =>
      if negb (check_object_permissions permission_classes request event)
      then (permission_denied, db)
      else
        let '(rows_imortal, rows_classificatoria) := get_sumulas event (Some false) db in
        (OK (SumulaSerializer rows_classificatoria rows_imortal db), db)
  end.
End View.
End FinishedSumulaView.

Module GetSumulaForPlayer.
Section View.
Context {D : Django} {B : BaseSumulaView}.

Definition permission_classes : list (Request -> Event -> bool) :=
  [IsAuthenticated.has_object_permission;
   GetSumulaForPlayerPermission.has_object_permission].

(** [[player_score.sumula_<variant> for player_score in player_scores]]. *)
Definition sumulas_of (v : Variant) (player_scores : list PlayerScore) (db : DB)
    : list Sumula :=
  flat_map (fun ps =>
              match sumula_fk v ps with
              | Some pk =>
                  match Sumula_objects_filter_id_first v pk db with
                  | Some s => [s]
                  | None => []
                  end
              | None => []
              end)
           player_scores.

Definition get (request : Request) (db : DB) : Response * DB :=
  match get_object request db with
  | Raises e => (handle_400_error e, db)
  | Returns event =>
  if negb (check_object_permissions permission_classes request event)
  then (permission_denied, db) else
  match Player_objects_filter_first (user request) event db with
  | None => (handle_400_error "Jogador não encontrado!", db)
  | Some player =>
      if is_imortal player then
        match PlayerScore_objects_filter_active Imortal player db with
        | [] => (handle_400_error "Jogador não possui nenhuma sumula associada!", db)
        | player_scores =>
            let rows := sumulas_of Imortal player_scores db in
            (OK (JList (map (SumulaForPlayerSerializer Imortal db) rows)), db)
        end
      else
        match PlayerScore_objects_filter_active Classificatoria player db with
        | [] => (handle_400_error "Jogador não possui nenhuma sumula associada!", db)
        | player_scores =>
            let rows := sumulas_of Classificatoria player_scores db in
            (OK (JList (map (SumulaForPlayerSerializer Classificatoria db) rows)), db)
        end
  end end.
End View.
End GetSumulaForPlayer.

Module AddRefereeToSumulaView.
Section View.
Context {D : Django} {B : BaseSumulaView}.

Definition permission_classes : list (Request -> Event -> bool) :=
  [IsAuthenticated.has_object_permission; HasSumulaPermission.has_object_permission].

Definition put (request : Request) (db : DB) : Response * DB :=
  let invalid := (handle_400_error "Dados inválidos!", db) in
  if negb (validate_request_data_dict (data request)) then invalid else
  match all_in ["sumula_id"; "is_imortal"] (data request) with
  | None => (server_error, db)
  | Some false => invalid
  | Some true =>
  match py_get (data request) "sumula_id" with
  | None => (server_error, db)
  | Some sumula_id =>
  if negb (truthy sumula_id)
  then (handle_400_error SUMULA_ID_NOT_PROVIDED_ERROR_MESSAGE, db) else
  match get_object request db with
  | Raises e => (handle_400_error e, db)
  | Returns event =>
  if negb (check_object_permissions permission_classes request event)
  then (permission_denied, db) else
  match Staff_objects_filter_first (user request) event db with
  | None => (handle_400_error "Usuário não é um monitor do evento!", db)
  | Some staff =>
  match py_get (data request) "is_imortal" with
  | None => (server_error, db)
  | Some is_imortal =>
  let variant := if truthy is_imortal then Imortal else Classificatoria in
  match pk_to_python sumula_id with
  | None => (server_error, db)
  | Some pk =>
  match Sumula_objects_filter_id_first variant pk db with
  | None => (handle_400_error SUMULA_NOT_FOUND_ERROR_MESSAGE, db)
  | Some sumula =>
      if 0 <? Z.of_nat (List.length (referee_all variant sumula db))
      then (handle_400_error "Súmula já possui um ou mais árbitros!", db)
      else (OK JNull, referee_add variant sumula staff db)
  end end end end end end end.
End View.
End AddRefereeToSumulaView.

(** The two create views and the two update/close views, by variant. *)
Definition create {D : Django} {B : BaseSumulaView} (v : Variant)
    : Request -> DB -> Response * DB :=
  match v with
  | Classificatoria => SumulaClassificatoriaView.post
  | Imortal => SumulaImortalView.post
  end.

Definition update_close {D : Django} {B : BaseSumulaView} (v : Variant)
    : Request -> DB -> Response * DB :=
  match v with
  | Classificatoria => SumulaClassificatoriaView.put
  | Imortal => SumulaImortalView.put
  end.

(** Every operation of the module. *)
Inductive operation : Type :=
| OpGetSumulas
| OpGetActive
| OpGetFinished
| OpGetForPlayer
| OpCreate (v : Variant)
| OpUpdateClose (v : Variant)
| OpAddReferee.

Definition run {D : Django} {B : BaseSumulaView} (op : operation)
    : Request -> DB -> Response * DB :=
  match op with
  | OpGetSumulas => GetSumulasView.get
  | OpGetActive => ActiveSumulaView.get
  | OpGetFinished => FinishedSumulaView.get
  | OpGetForPlayer => GetSumulaForPlayer.get
  | OpCreate v => create v
  | OpUpdateClose v => update_close v
  | OpAddReferee => AddRefereeToSumulaView.put
  end.

(** A sequence of operations, each on the store the previous one left. *)
Fixpoint run_all {D : Django} {B : BaseSumulaView}
    (calls : list (operation * Request)) (db : DB) : DB :=
  match calls with
  | [] => db
  | (op, request) :: rest => run_all rest (snd (run op request db))
  end.

(** ** The base class, from the specification

    [api/views/base_views.py] is not part of the sources.  [SpecBase] gives
    each of its methods the behaviour the specification describes for it. *)

Module SpecBase.
Section Helpers.
Context {D : Django}.

(** The list under key [k] of a payload. *)
Definition entries (d : json) (k : string) : option (list json) :=
  match subscript d k with
  | Some (JList items) => Some items
  | _ => None
  end.

(** The primary key under [id] of a payload entry. *)
Definition entry_id (e : json) : option Z :=
  match subscript e "id" with
  | Some j => pk_to_python j
  | None => None
  end.

Definition has_id (e : json) : bool :=
  match subscript e "id" with Some _ => true | None => false end.

(** All of [f] on the items, or nothing. *)
Fixpoint resolve_all {A : Type} (f : json -> option A) (items : list json)
    : option (list A) :=
  match items with
  | [] => Some []
  | e :: rest =>
      match f e, resolve_all f rest with
      | Some a, Some l => Some (a :: l)
      | _, _ => None
      end
  end.

(** Modelled from the spec: [validate_request_data_dict] is missing; a
    payload of malformed shape is a validation failure, the payload is
    an object. *)
Definition validate_request_data_dict (d : json) : bool :=
  match d with JDict _ => true | _ => false end.

(** Modelled from the spec: [validate_players] is missing; [players] is a
    non-empty sequence of player references. *)
Definition validate_players (db : DB) (d : json) : bool :=
  match entries d "players" with
  | Some (e :: rest) => forallb has_id (e :: rest)
  | _ => false
  end.

Definition resolve_staff (db : DB) (e : json) : option Staff :=
  match entry_id e with
  | Some pk => find (fun st => staff_id st =? pk) (staffs db)
  | None => None
  end.

(** Modelled from the spec: [validate_referees] is missing; [referees] is
    a sequence of staff references that may be empty, and a reference
    that does not resolve is a validation failure reported before
    anything is persisted. *)
Definition validate_referees (db : DB) (d : json) : bool :=
  match entries d "referees" with
  | Some items =>
      match resolve_all (resolve_staff db) items with
      | Some _ => true
      | None => false
      end
  | None => false
  end.

(** An entry of [players_score]: its [id] resolves to a score row of the
    sumula [pk] of table [v], and it carries integer [points]. *)
Definition resolve_score (v : Variant) (pk : Z) (db : DB) (e : json)
    : option (Z * Z) :=
  match entry_id e, subscript e "points" with
  | Some sid, Some (JInt pts) =>
      match find (fun ps => score_id ps =? sid) (player_scores db) with
      | Some ps =>
          match sumula_fk v ps with
          | Some fk => if fk =? pk then Some (sid, pts) else None
          | None => None
          end
      | None => None
      end
  | _, _ => None
  end.

(** Modelled from the spec: [validate_players_score] is missing; every
    entry of [players_score] has an [id] that resolves to a score of the
    sumula named by the payload, and a missing or unresolvable id
    invalidates the request. *)
Definition validate_players_score (db : DB) (d : json) : bool :=
  match subscript d "id", entries d "players_score" with
  | Some j, Some items =>
      match pk_to_python j with
      | Some pk =>
          match resolve_all (resolve_score Classificatoria pk db) items with
          | Some _ => true
          | None => false
          end
      | None => false
      end
  | _, _ => false
  end.

(** Modelled from the spec: [get_object] is missing; the event named by
    the request is returned, or a not-provided or not-found failure. *)
Definition get_object (request : Request) (db : DB) : outcome Event :=
  match find (fun q => (fst q =? "event_id")%string) (query_params request) with
  | None => Raises "Id do evento não fornecido!"
  | Some (_, value) =>
      match NilZero.uint_of_string value with
      | None => Raises "Evento não encontrado!"
      | Some pk =>
          match find (fun ev => event_id ev =? Z.of_uint pk) (events db) with
          | Some ev => Returns ev
          | None => Raises "Evento não encontrado!"
          end
      end
  end.

(** Modelled from the spec: [get_sumulas] is missing; the sumulas of the
    event, all of them or those of one status, the imortal ones first. *)
Definition get_sumulas (event : Event) (status : option bool) (db : DB)
    : list Sumula * list Sumula :=
  let wanted (s : Sumula) :=
    (sumula_event s =? event_id event)
    && match status with
       | Some a => Bool.eqb (active s) a
       | None => true
       end in
  (filter wanted (sumulas Imortal db), filter wanted (sumulas Classificatoria db)).

(** Modelled from the spec: a player reference resolves to the existing
    player of that id when it is of the eligibility class of the sumula
    variant. *)
Definition resolve_player (v : Variant) (db : DB) (e : json) : option Player :=
  match entry_id e with
  | Some pk =>
      match find (fun p => player_id p =? pk) (players db) with
      | Some p =>
          if Bool.eqb (is_imortal p) (variant_eqb v Imortal) then Some p else None
      | None => None
      end
  | None => None
  end.

(** [PlayerScore.objects.create(player=player, sumula_<variant>=sumula,
    event=event)]: [points] takes its default. *)
Definition PlayerScore_objects_create (v : Variant) (sumula : Sumula)
    (event : Event) (db : DB) (p : Player) : DB :=
  let row := {| score_id := next_id (map score_id (player_scores db));
                score_player := player_id p;
                score_event := event_id event;
                sumula_classificatoria :=
                  match v with Classificatoria => Some (sumula_id sumula) | Imortal => None end;
                sumula_imortal :=
                  match v with Imortal => Some (sumula_id sumula) | Classificatoria => None end;
                points := 0 |} in
  set_player_scores (player_scores db ++ [row]) db.

(** Modelled from the spec: [create_players_score] is missing; one score
    with zero points per player, and no score at all when a reference
    does not resolve. *)
Definition create_players_score (players : json) (v : Variant) (sumula : Sumula)
    (event : Event) (db : DB) : outcome unit * DB :=
  match players with
  | JList items =>
      match resolve_all (resolve_player v db) items with
      | Some ps => (Returns tt, fold_left (PlayerScore_objects_create v sumula event) ps db)
      | None => (Raises "Jogador não encontrado!", db)
      end
  | _ => (Raises "Dados inválidos!", db)
  end.

(** Modelled from the spec: [add_referees] is missing; the referees
    supplied at creation are attached. *)
Definition add_referees (v : Variant) (sumula : Sumula) (event : Event)
    (referees : json) (db : DB) : outcome unit * DB :=
  match referees with
  | JList items =>
      (Returns tt,
       fold_left (fun db e =>
                    match resolve_staff db e with
                    | Some st => referee_add v sumula st db
                    | None => db
                    end)
                 items db)
  | _ => (Returns tt, db)
  end.

(** Modelled from the spec: [validate_if_staff_is_sumula_referee] is
    missing; the requester's Staff record for the event, and a failure
    when there is none. *)
Definition validate_if_staff_is_sumula_referee (request : Request) (v : Variant)
    (sumula : Sumula) (event : Event) (db : DB) : outcome Staff :=
  match Staff_objects_filter_first (user request) event db with
  | Some staff => Returns staff
  | None => Raises "Usuário não é um monitor do evento!"
  end.

(** Modelled from the spec: the aggregation behind [total_score] is not in
    the sources; it is the default of the design notes, the sum of the
    points of all the scores of the player within the event. *)
Definition aggregate (pid ev : Z) (rows : list PlayerScore) : Z :=
  fold_right Z.add 0
    (map points
         (filter (fun ps => (score_player ps =? pid) && (score_event ps =? ev)) rows)).

Definition with_points (pts : Z) (ps : PlayerScore) : PlayerScore :=
  {| score_id := score_id ps; score_player := score_player ps;
     score_event := score_event ps;
     sumula_classificatoria := sumula_classificatoria ps;
     sumula_imortal := sumula_imortal ps; points := pts |}.

Definition with_total (t : Z) (p : Player) : Player :=
  {| player_id := player_id p; player_user := player_user p;
     player_event := player_event p; total_score := t;
     registration_email := registration_email p; is_imortal := is_imortal p |}.

(** The total of player [pid] is recomputed from the score rows. *)
Definition recompute_total (pid : Z) (db : DB) : DB :=
  set_players
    (map (fun p =>
            if player_id p =? pid
            then with_total (aggregate pid (player_event p) (player_scores db)) p
            else p)
         (players db))
    db.

(** [player_score.points = pts; player_score.save()] on the score [sid]. *)
Definition set_points (sid pts : Z) (rows : list PlayerScore) : list PlayerScore :=
  map (fun ps => if score_id ps =? sid then with_points pts ps else ps) rows.

(** One score write: the points, then the total of the owning player. *)
Definition write_score (db : DB) (w : Z * Z) : DB :=
  let '(sid, pts) := w in
  let db := set_player_scores (set_points sid pts (player_scores db)) db in
  match find (fun ps => score_id ps =? sid) (player_scores db) with
  | Some ps => recompute_total (score_player ps) db
  | None => db
  end.

(** The total of player [pid] agrees with the score rows. *)
Definition consistent_total (pid : Z) (db : DB) : Prop :=
  forall p,
    In p (players db) ->
    player_id p = pid ->
    total_score p = aggregate pid (player_event p) (player_scores db).

(** The referee relation of the sumula becomes exactly [ids]. *)
Definition referee_set (v : Variant) (sumula : Sumula) (ids : list Z) (db : DB) : DB :=
  set_referees v
    (filter (fun r => negb (fst r =? sumula_id sumula)) (referees v db)
     ++ map (fun i => (sumula_id sumula, i)) (nodup Z.eq_dec ids))
    db.

(** [sumula.save()]. *)
Definition Sumula_save (v : Variant) (row : Sumula) (db : DB) : DB :=
  set_sumulas v
    (map (fun s => if sumula_id s =? sumula_id row then row else s) (sumulas v db))
    db.

Definition char_field (d : json) (k : string) : option string :=
  match subscript d k with
  | Some j => char_to_python j
  | None => None
  end.

(** Modelled from the spec: [update_sumula] is missing; the whole batch
    is validated before any write, then the name is overwritten, the
    referee set replaced by the supplied one, every supplied score
    written with the total of its player recomputed, and the sumula
    closed. *)
Definition update_sumula (request : Request) (v : Variant) (sumula : Sumula)
    (event : Event) (db : DB) : outcome unit * DB :=
  let d := data request in
  match char_field d "name", entries d "referee", entries d "players_score" with
  | Some nm, Some refs, Some items =>
      match resolve_all (resolve_staff db) refs,
            resolve_all (resolve_score v (sumula_id sumula) db) items with
      | Some staff, Some writes =>
          let db := referee_set v sumula (map staff_id staff) db in
          let db := fold_left write_score writes db in
          let db := Sumula_save v {| sumula_id := sumula_id sumula;
                                     sumula_event := sumula_event sumula;
                                     name := nm;
                                     active := false |} db in
          (Returns tt, db)
      | _, _ => (Raises "Dados inválidos!", db)
      end
  | _, _, _ => (Raises "Dados inválidos!", db)
  end.
End Helpers.

(** Modelled from the spec: the base class with the methods above.  The
    not-found message is the one the tests of the repository expect; the
    text of the id-not-provided message is not in the sources. *)
Definition base {D : Django} : BaseSumulaView :=
  Build_BaseSumulaView
    "Sumula não encontrada!"
    "Id da sumula não fornecido!"
    validate_request_data_dict
    validate_players
    validate_referees
    validate_players_score
    get_object
    get_sumulas
    create_players_score
    add_referees
    validate_if_staff_is_sumula_referee
    update_sumula.
End SpecBase.

(** ** Closedness across an operation *)

(** The rows of a sumula table before and after an operation: every row is
    kept under its key, a row that was closed is still closed, and new
    rows come after the old ones. *)
Definition closed_stays_closed (rows rows' : list Sumula) : Prop :=
  exists kept added,
    rows' = kept ++ added
    /\ Forall2 (fun s s' => sumula_id s' = sumula_id s
                            /\ (active s = false -> active s' = false))
               rows kept.

(** ** A deployment for the examples *)

(** Object permissions as (user id, permission, event id) grants; integer
    primary keys and string names are taken as they are, other values
    raise. *)
Definition django_of (grants : list (Z * string * Z)) : Django := {|
  has_perm u perm ev :=
    existsb (fun g => match g with
                      | (uid, p, eid) =>
                          (uid =? user_id u) && (p =? perm)%string && (eid =? event_id ev)
                      end)
            grants;
  pk_to_python j := match j with JInt n => Some n | _ => None end;
  char_to_python j := match j with JStr s => Some s | _ => None end
|}.

Module Example.

Definition admin : User :=
  {| user_id := 1; email := "admin@unb.br"; first_name := "Ana"; last_name := "Admin" |}.
Definition monitor : User :=
  {| user_id := 2; email := "monitor@unb.br"; first_name := "Caio"; last_name := "Monitor" |}.
Definition manager : User :=
  {| user_id := 3; email := "gerente@unb.br"; first_name := "Bia"; last_name := "Gerente" |}.
Definition player_user1 : User :=
  {| user_id := 4; email := "j1@unb.br"; first_name := "Davi"; last_name := "Jogador" |}.
Definition player_user2 : User :=
  {| user_id := 5; email := "j2@unb.br"; first_name := "Eva"; last_name := "Jogadora" |}.
Definition outsider : User :=
  {| user_id := 6; email := "fora@unb.br"; first_name := "Fabio"; last_name := "Fora" |}.

Definition event : Event :=
  {| event_id := 1; event_name := "Evento 1"; admin_email := "admin@unb.br" |}.

Definition monitor_staff : Staff :=
  {| staff_id := 1; staff_user := 2; staff_event := 1; is_manager := false |}.
Definition manager_staff : Staff :=
  {| staff_id := 2; staff_user := 3; staff_event := 1; is_manager := true |}.

Definition player1 : Player :=
  {| player_id := 1; player_user := 4; player_event := 1; total_score := 0;
     registration_email := "j1@unb.br"; is_imortal := false |}.
Definition player2 : Player :=
  {| player_id := 2; player_user := 5; player_event := 1; total_score := 0;
     registration_email := "j2@unb.br"; is_imortal := false |}.

Definition open_sumula : Sumula :=
  {| sumula_id := 1; sumula_event := 1; name := "chave A"; active := true |}.
Definition closed_sumula : Sumula :=
  {| sumula_id := 2; sumula_event := 1; name := "chave B"; active := false |}.

Definition score1 : PlayerScore :=
  {| score_id := 1; score_player := 1; score_event := 1;
     sumula_classificatoria := Some 1; sumula_imortal := None; points := 0 |}.
Definition score2 : PlayerScore :=
  {| score_id := 2; score_player := 2; score_event := 1;
     sumula_classificatoria := Some 1; sumula_imortal := None; points := 0 |}.
Definition score3 : PlayerScore :=
  {| score_id := 3; score_player := 1; score_event := 1;
     sumula_classificatoria := Some 2; sumula_imortal := None; points := 7 |}.

(** One event with an open sumula without referee and a closed one
    officiated by the monitor. *)
Definition db : DB :=
  {| users := [admin; monitor; manager; player_user1; player_user2; outsider];
     events := [event];
     staffs := [monitor_staff; manager_staff];
     players := [player1; player2];
     sumulas_classificatoria := [open_sumula; closed_sumula];
     sumulas_imortal := [];
     referee_classificatoria := [(2, 1)];
     referee_imortal := [];
     player_scores := [score1; score2; score3] |}.

Definition sumula_perms (uid : Z) : list (Z * string * Z) :=
  [(uid, "api.add_sumula_event", 1); (uid, "api.view_sumula_event", 1);
   (uid, "api.change_sumula_event", 1); (uid, "api.delete_sumula_event", 1);
   (uid, "api.view_event", 1)].

(** The monitor and the manager hold the sumula permissions; the admin
    holds none through a group. *)
Definition staff_only : Django := django_of (sumula_perms 2 ++ sumula_perms 3).

(** The admin, the monitor, the manager and the players hold them. *)
Definition everyone : Django :=
  django_of (sumula_perms 1 ++ sumula_perms 2 ++ sumula_perms 3
             ++ sumula_perms 4 ++ sumula_perms 5).

(** Only the manager holds them. *)
Definition manager_only : Django := django_of (sumula_perms 3).

Definition request_of (m : string) (u : User) (d : json) : Request :=
  {| method := m; user := u; query_params := [("event_id", "1")]; data := d |}.

Definition entry (i : Z) : json := JDict [("id", JInt i)].
Definition score_entry (i pts : Z) : json := JDict [("id", JInt i); ("points", JInt pts)].

(** Create: two players that exist, then one that does not. *)
Definition create_data : json :=
  JDict [("name", JStr "chave C"); ("players", JList [entry 1; entry 2]);
         ("referees", JList [entry 1])].
Definition create_data_unknown_player : json :=
  JDict [("name", JStr "chave C"); ("players", JList [entry 1; entry 99]);
         ("referees", JList [])].

(** Update/close of the open sumula 1 and of the closed sumula 2. *)
Definition close_data : json :=
  JDict [("id", JInt 1); ("name", JStr "chave A final"); ("description", JStr "");
         ("referee", JList [entry 2; entry 1]);
         ("players_score", JList [score_entry 1 10; score_entry 2 15])].
Definition edit_closed_data : json :=
  JDict [("id", JInt 2); ("name", JStr "chave B"); ("description", JStr "");
         ("referee", JList [entry 1]);
         ("players_score", JList [score_entry 3 9])].
Definition close_data_missing_id : json :=
  JDict [("id", JInt 1); ("name", JStr "chave A final"); ("description", JStr "");
         ("referee", JList [entry 1]);
         ("players_score", JList [JDict [("points", JInt 10)]; score_entry 2 15])].

Definition add_referee_data (i : Z) : json :=
  JDict [("sumula_id", JInt i); ("is_imortal", JBool false)].

End Example.

(** ** The permission classes of each operation *)

Definition permission_classes_of {D : Django} (op : operation)
    : list (Request -> Event -> bool) :=
  match op with
  | OpGetSumulas => GetSumulasView.permission_classes
  | OpGetActive => ActiveSumulaView.permission_classes
  | OpGetFinished => FinishedSumulaView.permission_classes
  | OpGetForPlayer => GetSumulaForPlayer.permission_classes
  | OpCreate Classificatoria => SumulaClassificatoriaView.permission_classes
  | OpCreate Imortal => SumulaImortalView.permission_classes
  | OpUpdateClose Classificatoria => SumulaClassificatoriaView.permission_classes
  | OpUpdateClose Imortal => SumulaImortalView.permission_classes
  | OpAddReferee => AddRefereeToSumulaView.permission_classes
  end.

(** A base class that differs from [B] in [validate_referees] only. *)
Definition with_validate_referees (f : DB -> json -> bool) (B : BaseSumulaView)
    : BaseSumulaView :=
  Build_BaseSumulaView
    SUMULA_NOT_FOUND_ERROR_MESSAGE
    SUMULA_ID_NOT_PROVIDED_ERROR_MESSAGE
    validate_request_data_dict
    validate_players
    f
    validate_players_score
    get_object
    get_sumulas
    create_players_score
    add_referees
    validate_if_staff_is_sumula_referee
    update_sumula.

(** ** The admin form of [users/admin.py] *)

Module UserForm.
Section Form.

(** A form field: its [required] flag and everything else it carries. *)
Variable Rest : Type.

Record Field := {
  required : bool;
  rest : Rest
}.

Definition set_required (b : bool) (f : Field) : Field :=
  {| required := b; rest := rest f |}.

(** [self.fields[k]]. *)
Fixpoint field_get (k : string) (fields : list (string * Field)) : option Field :=
  match fields with
  | [] => None
  | (k', f) :: others => if (k' =? k)%string then Some f else field_get k others
  end.

(** [self.fields[k].required = b]; [None] is the KeyError. *)
Fixpoint field_set_required (k : string) (b : bool) (fields : list (string * Field))
    : option (list (string * Field)) :=
  match fields with
  | [] => None
  | (k', f) :: others =>
      if (k' =? k)%string then Some ((k', set_required b f) :: others)
      else match field_set_required k b others with
           | Some others' => Some ((k', f) :: others')
           | None => None
           end
  end.

(** [__init__] after [super().__init__]: [fields] are the fields the model
    form built, in their order. *)
Definition init (fields : list (string * Field)) : option (list (string * Field)) :=
  let fields := map (fun kf => (fst kf, set_required false (snd kf))) fields in
  field_set_required "email" true fields.

End Form.
End UserForm.

(** ** The name generator of [tests/test_views_players.py] *)

Module PlayersViewTest.

(** [l[i]] on a list, negative indices counting from the end; [None] is
    the IndexError. *)
Definition py_index (A : Type) (l : list A) (i : Z) : option A :=
  let n := Z.of_nat (List.length l) in
  if 0 <=? i then nth_error l (Z.to_nat i)
  else if - n <=? i then nth_error l (Z.to_nat (n + i))
  else None.

Definition names : list string :=
  ["João"; "José"; "Pedro"; "Paulo"; "Lucas"; "Mário"; "Luiz"].

(** [generate_random_name], given what [random.randint(0, 6)] returned. *)
Definition generate_random_name (randint_0_6 : Z) : option string :=
  py_index names randint_0_6.

End PlayersViewTest.

(** ** More requests on the example store *)

Module Cases.


(** An update of the imortal sumula 100, which does not exist. *)
Definition update_unknown_sumula : json :=
  JDict [("id", JInt 100); ("name", JStr "chave Z"); ("description", JStr "");
         ("referee", JList []); ("players_score", JList [])].

(** A create payload without the referees key. *)
Definition create_without_referees : json :=
  JDict [("name", JStr "chave C"); ("players", JList [Example.entry 1])].

(** The fields of a user form, each with its label. *)
Definition user_fields : list (string * UserForm.Field string) :=
  [("first_name", {| UserForm.required := false; UserForm.rest := "First name" |});
   ("email", {| UserForm.required := false; UserForm.rest := "Email address" |});
   ("username", {| UserForm.required := true; UserForm.rest := "Username" |})].

End Cases.

(** * Properties *)

(** ** The permission gate *)

Section Gate.
Context {D : Django}.

Lemma check_sumula_permissions (request : Request) (event : Event) :
  check_object_permissions
    [IsAuthenticated.has_object_permission; HasSumulaPermission.has_object_permission]
    request event
  = HasSumulaPermission.has_object_permission request event.
Proof.
  unfold check_object_permissions, IsAuthenticated.has_object_permission.
  simpl. now rewrite andb_true_r.
Qed.

Lemma put_gate (request : Request) (event : Event) :
  method request = "PUT" ->
  HasSumulaPermission.has_object_permission request event
  = has_perm (user request) "api.change_sumula_event" event.
Proof.
  intros Hm. unfold HasSumulaPermission.has_object_permission. now rewrite Hm.
Qed.

(** C10: for a request whose method is none of POST, GET, PUT and DELETE
    the object-permission gate of the sumula views answers True, whatever
    [has_perm] would say: it allows by default. *)
Theorem C10_other_methods_allowed_by_default (request : Request) (obj : Event) :
  method request <> "POST" ->
  method request <> "GET" ->
  method request <> "PUT" ->
  method request <> "DELETE" ->
  HasSumulaPermission.has_object_permission request obj = true.
Proof.
  intros Hpost Hget Hput Hdelete.
  unfold HasSumulaPermission.has_object_permission.
  apply String.eqb_neq in Hpost, Hget, Hput, Hdelete.
  now rewrite Hpost, Hget, Hput, Hdelete.
Qed.

End Gate.

(** A PATCH of a user without any grant passes the gate. *)
Lemma C10_patch_without_grant :
  HasSumulaPermission.has_object_permission (D := django_of [])
    (Example.request_of "PATCH" Example.outsider JNull) Example.event = true.
Proof.
  apply (C10_other_methods_allowed_by_default (D := django_of [])); discriminate.
Defined.

(** ** Update/close *)

Section UpdateClose.
Context {D : Django} {B : BaseSumulaView}.
Variables (v : Variant) (request : Request) (db : DB).
Variables (j : json) (pk : Z) (sumula : Sumula) (event : Event).

(** The request is well formed, names an existing sumula of the table and
    carries the id of an existing event. *)
Hypothesis Hdict : validate_request_data_dict (data request) = true.
Hypothesis Hfields : all_in ["id"; "name"; "description"] (data request) = Some true.
Hypothesis Hscores : v = Classificatoria -> validate_players_score db (data request) = true.
Hypothesis Hid : subscript (data request) "id" = Some j.
Hypothesis Htruthy : truthy j = true.
Hypothesis Hpk : pk_to_python j = Some pk.
Hypothesis Hsumula : Sumula_objects_filter_id_first v pk db = Some sumula.
Hypothesis Hevent : get_object request db = Returns event.

(** What is left of [put] once the request is resolved: the gate, the
    admin test, the staff checks and the update. *)
Lemma update_close_resolved :
  update_close v request db =
  if negb (HasSumulaPermission.has_object_permission request event)
  then (permission_denied, db)
  else
    let update :=
      match update_sumula request v sumula event db with
      | (Raises e, db') => (handle_400_error e, db')
      | (Returns _, db') => (OK JNull, db')
      end in
    if negb (email (user request) =? admin_email event)%string then
      match validate_if_staff_is_sumula_referee request v sumula event db with
      | Raises e => (handle_400_error e, db)
      | Returns staff =>
          if negb (active sumula) && negb (is_manager staff)
          then (handle_400_error SUMULA_IS_CLOSED_ERROR_MESSAGE, db)
          else update
      end
    else update.
Proof.
  destruct v; unfold update_close.
  - unfold SumulaClassificatoriaView.put, SumulaClassificatoriaView.permission_classes.
    cbv zeta. rewrite Hdict, Hfields, (Hscores eq_refl), Hid, Htruthy, Hpk, Hsumula, Hevent.
    cbn [negb]. rewrite check_sumula_permissions. reflexivity.
  - unfold SumulaImortalView.put, SumulaImortalView.permission_classes.
    cbv zeta. rewrite Hdict, Hfields, Hid, Htruthy, Hpk, Hsumula, Hevent.
    cbn [negb]. rewrite check_sumula_permissions. reflexivity.
Qed.

(** C4, amended: on a closed sumula a requester who is not the event admin
    is refused with the permission denial when the change permission is
    missing; when it is held and the staff validation returns a Staff
    record that is not a manager, the request is refused with the
    closed-sumula message and nothing is written; and the request succeeds
    only when that Staff record is a manager. *)
Theorem C4_closed_sumula_needs_manager :
  active sumula = false ->
  email (user request) <> admin_email event ->
  (HasSumulaPermission.has_object_permission request event = false ->
   update_close v request db = (permission_denied, db))
  /\ (forall staff,
         HasSumulaPermission.has_object_permission request event = true ->
         validate_if_staff_is_sumula_referee request v sumula event db = Returns staff ->
         is_manager staff = false ->
         update_close v request db
         = (handle_400_error SUMULA_IS_CLOSED_ERROR_MESSAGE, db))
  /\ (status (fst (update_close v request db)) = 200 ->
      exists staff,
        validate_if_staff_is_sumula_referee request v sumula event db = Returns staff
        /\ is_manager staff = true).
Proof.
  intros Hclosed Hadmin. apply String.eqb_neq in Hadmin.
  rewrite update_close_resolved, Hadmin, Hclosed. cbn [negb andb].
  repeat split.
  - intros Hgate. now rewrite Hgate.
  - intros staff Hgate Hstaff Hmanager. now rewrite Hgate, Hstaff, Hmanager.
  - destruct (HasSumulaPermission.has_object_permission request event);
      cbn [negb]; [| discriminate].
    destruct (validate_if_staff_is_sumula_referee request v sumula event db)
      as [staff | e]; [| discriminate].
    destruct (is_manager staff) eqn:Hmanager; [| discriminate].
    intros _. now exists staff.
Qed.

(** C6, amended: for the event admin the update/close view skips the staff
    validation and the closed-sumula rule, but only behind the permission
    gate, which looks at the grant of the change permission and not at
    the email: with the grant the update runs, without it the admin is
    refused. *)
Theorem C6_admin_behind_the_gate :
  email (user request) = admin_email event ->
  method request = "PUT" ->
  update_close v request db =
  if has_perm (user request) "api.change_sumula_event" event
  then match update_sumula request v sumula event db with
       | (Raises e, db') => (handle_400_error e, db')
       | (Returns _, db') => (OK JNull, db')
       end
  else (permission_denied, db).
Proof.
  intros Hadmin Hput. apply String.eqb_eq in Hadmin.
  rewrite update_close_resolved, Hadmin, (put_gate _ _ Hput).
  now destruct (has_perm (user request) "api.change_sumula_event" event).
Qed.

End UpdateClose.

(** The monitor edits the closed sumula 2 of the example: refused with the
    closed-sumula message. *)
Lemma C4_monitor_refused_on_closed_sumula :
  update_close (D := Example.staff_only) (B := @SpecBase.base Example.staff_only)
    Classificatoria (Example.request_of "PUT" Example.monitor Example.edit_closed_data)
    Example.db
  = (handle_400_error SUMULA_IS_CLOSED_ERROR_MESSAGE, Example.db).
Proof.
  refine (proj1 (proj2 (@C4_closed_sumula_needs_manager
                          Example.staff_only (@SpecBase.base Example.staff_only)
                          Classificatoria
                          (Example.request_of "PUT" Example.monitor
                             Example.edit_closed_data)
                          Example.db (JInt 2) 2 Example.closed_sumula Example.event
                          _ _ _ _ _ _ _ _ _ _))
            Example.monitor_staff _ _ _);
    try reflexivity; discriminate.
Defined.

(** C4 as stated fails: a monitor who is not a manager and holds no change
    permission edits the closed sumula 2 and receives the permission
    denial, not the closed-sumula message. *)
Lemma C4_counterexample_no_base_permission :
  let request := Example.request_of "PUT" Example.monitor Example.edit_closed_data in
  let response :=
    fst (update_close (D := Example.manager_only)
           (B := @SpecBase.base Example.manager_only)
           Classificatoria request Example.db) in
  Sumula_objects_filter_id_first Classificatoria 2 Example.db = Some Example.closed_sumula
  /\ active Example.closed_sumula = false
  /\ email (user request) <> admin_email Example.event
  /\ Staff_objects_filter_first (user request) Example.event Example.db
     = Some Example.monitor_staff
  /\ is_manager Example.monitor_staff = false
  /\ response = permission_denied
  /\ response <> handle_400_error SUMULA_IS_CLOSED_ERROR_MESSAGE.
Proof.
  cbv zeta. repeat split; try reflexivity; discriminate.
Qed.

(** The admin of the example, holding the change permission, edits the
    closed sumula 2. *)
Lemma C6_admin_with_grant_edits_closed_sumula :
  status (fst (update_close (D := Example.everyone)
                 (B := @SpecBase.base Example.everyone)
                 Classificatoria
                 (Example.request_of "PUT" Example.admin Example.edit_closed_data)
                 Example.db))
  = 200.
Proof.
  rewrite (@C6_admin_behind_the_gate
             Example.everyone (@SpecBase.base Example.everyone)
             Classificatoria
             (Example.request_of "PUT" Example.admin Example.edit_closed_data)
             Example.db (JInt 2) 2 Example.closed_sumula Example.event
             eq_refl eq_refl (fun _ => eq_refl) eq_refl eq_refl eq_refl eq_refl eq_refl
             eq_refl eq_refl).
  reflexivity.
Defined.

(** C6 as stated fails: the user whose email is the admin email of the
    event, without a grant of the change permission, does not pass the
    gate and the update/close is refused. *)
Lemma C6_counterexample_admin_without_grant :
  let request := Example.request_of "PUT" Example.admin Example.edit_closed_data in
  email (user request) = admin_email Example.event
  /\ HasSumulaPermission.has_object_permission (D := Example.staff_only)
       request Example.event = false
  /\ update_close (D := Example.staff_only) (B := @SpecBase.base Example.staff_only)
       Classificatoria request Example.db
     = (permission_denied, Example.db).
Proof.
  cbv zeta. repeat split; reflexivity.
Qed.

(** ** The message of a rejected score batch *)

(** C8: when [validate_players_score] rejects the batch, the
    classificatória update/close answers 400 before any write, with the
    message "Dados Invalidos!", which is not the "Dados inválidos!" of the
    claim and of the test of the repository. *)
Theorem C8_rejected_batch_message {D : Django} {B : BaseSumulaView}
    (request : Request) (db : DB) :
  validate_request_data_dict (data request) = true ->
  all_in ["id"; "name"; "description"] (data request) = Some true ->
  validate_players_score db (data request) = false ->
  SumulaClassificatoriaView.put request db = (handle_400_error "Dados Invalidos!", db)
  /\ handle_400_error "Dados Invalidos!" <> handle_400_error "Dados inválidos!".
Proof.
  intros Hdict Hfields Hscores. split; [| discriminate].
  unfold SumulaClassificatoriaView.put. cbv zeta.
  now rewrite Hdict, Hfields, Hscores.
Qed.

(** The batch of the example with an entry without [id]. *)
Lemma C8_entry_without_id :
  SumulaClassificatoriaView.put (D := Example.staff_only)
    (B := @SpecBase.base Example.staff_only)
    (Example.request_of "PUT" Example.monitor Example.close_data_missing_id) Example.db
  = (handle_400_error "Dados Invalidos!", Example.db).
Proof.
  apply (@C8_rejected_batch_message Example.staff_only
           (@SpecBase.base Example.staff_only)); reflexivity.
Defined.

(** ** Add referee *)

Lemma referees_set_referees (v : Variant) (rows : list (Z * Z)) (db : DB) :
  referees v (set_referees v rows db) = rows.
Proof. now destruct v. Qed.

Lemma referee_all_after_add (v : Variant) (s : Sumula) (st : Staff) (db : DB) :
  referee_all v s db = [] ->
  referee_add v s st db
  = set_referees v (referees v db ++ [(sumula_id s, staff_id st)]) db
  /\ referee_all v s (referee_add v s st db) = [staff_id st].
Proof.
  intros Hnone. unfold referee_add. rewrite Hnone. cbn [existsb].
  split; [reflexivity |].
  unfold referee_all in *. rewrite referees_set_referees, filter_app, map_app, Hnone.
  cbn. now rewrite Z.eqb_refl.
Qed.

Section AddReferee.
Context {D : Django} {B : BaseSumulaView}.

(** A success of the view comes from a Staff record of the requester for
    the event of the request. *)
Lemma add_referee_success_has_staff (request : Request) (db : DB) :
  status (fst (AddRefereeToSumulaView.put request db)) = 200 ->
  exists event staff,
    get_object request db = Returns event
    /\ Staff_objects_filter_first (user request) event db = Some staff.
Proof.
  unfold AddRefereeToSumulaView.put. cbv zeta.
  destruct (validate_request_data_dict (data request)); [| discriminate].
  cbn [negb].
  destruct (all_in ["sumula_id"; "is_imortal"] (data request)) as [[|]|];
    try discriminate.
  destruct (py_get (data request) "sumula_id") as [sumula_id|]; [| discriminate].
  destruct (truthy sumula_id); [| discriminate]. cbn [negb].
  destruct (get_object request db) as [event | e] eqn:Hevent; [| discriminate].
  destruct (check_object_permissions _ request event); [| discriminate].
  cbn [negb].
  destruct (Staff_objects_filter_first (user request) event db) as [staff|] eqn:Hstaff;
    [| discriminate].
  intros _. now exists event, staff.
Qed.

(** Whatever the request, a failure of the view writes nothing. *)
Lemma add_referee_failure_writes_nothing (request : Request) (db : DB) :
  status (fst (AddRefereeToSumulaView.put request db)) <> 200 ->
  snd (AddRefereeToSumulaView.put request db) = db.
Proof.
  unfold AddRefereeToSumulaView.put. cbv zeta.
  repeat match goal with
         | |- context [match ?x with _ => _ end] => destruct x
         end;
    cbn; intros; try reflexivity; congruence.
Qed.

Variables (request : Request) (db : DB).
Variables (j flag : json) (pk : Z) (event : Event) (sumula : Sumula).

(** The request is well formed, names an existing event on which the
    requester holds the change permission, and an existing sumula of the
    table its flag selects. *)
Hypothesis Hdict : validate_request_data_dict (data request) = true.
Hypothesis Hfields : all_in ["sumula_id"; "is_imortal"] (data request) = Some true.
Hypothesis Hid : py_get (data request) "sumula_id" = Some j.
Hypothesis Htruthy : truthy j = true.
Hypothesis Hflag : py_get (data request) "is_imortal" = Some flag.
Hypothesis Hevent : get_object request db = Returns event.
Hypothesis Hgate : HasSumulaPermission.has_object_permission request event = true.
Hypothesis Hpk : pk_to_python j = Some pk.

Let variant : Variant := if truthy flag then Imortal else Classificatoria.

Hypothesis Hsumula : Sumula_objects_filter_id_first variant pk db = Some sumula.

(** C7: a requester with a Staff record for the event who targets an
    existing sumula becomes its only referee when the sumula has none, and
    receives the conflict error, with the referee relation untouched, when
    it has one or more; a requester without a Staff record for the event
    never succeeds and nothing is written. *)
Theorem C7_add_referee_exclusive :
  (forall staff,
      Staff_objects_filter_first (user request) event db = Some staff ->
      (referee_all variant sumula db = [] ->
       AddRefereeToSumulaView.put request db
       = (OK JNull,
          set_referees variant
            (referees variant db ++ [(sumula_id sumula, staff_id staff)]) db)
       /\ referee_all variant sumula (snd (AddRefereeToSumulaView.put request db))
          = [staff_id staff])
      /\ (referee_all variant sumula db <> [] ->
          AddRefereeToSumulaView.put request db
          = (handle_400_error "Súmula já possui um ou mais árbitros!", db)))
  /\ (forall request' db',
         (forall event',
             get_object request' db' = Returns event' ->
             Staff_objects_filter_first (user request') event' db' = None) ->
         status (fst (AddRefereeToSumulaView.put request' db')) <> 200
         /\ snd (AddRefereeToSumulaView.put request' db') = db').
Proof.
  split.
  - intros staff Hstaff.
    assert (Hput : AddRefereeToSumulaView.put request db =
                   if 0 <? Z.of_nat (List.length (referee_all variant sumula db))
                   then (handle_400_error "Súmula já possui um ou mais árbitros!", db)
                   else (OK JNull, referee_add variant sumula staff db)).
    { unfold AddRefereeToSumulaView.put, AddRefereeToSumulaView.permission_classes.
      cbv zeta. rewrite Hdict, Hfields, Hid, Htruthy, Hevent. cbn [negb].
      rewrite check_sumula_permissions, Hgate. cbn [negb].
      rewrite Hstaff, Hflag, Hpk. fold variant. now rewrite Hsumula. }
    split.
    + intros Hnone. rewrite Hput, Hnone. cbn [List.length Z.of_nat Z.ltb Z.compare snd].
      destruct (referee_all_after_add variant sumula staff db Hnone) as [Hadd Hall].
      split; [now rewrite Hadd | exact Hall].
    + intros Hsome. rewrite Hput.
      destruct (referee_all variant sumula db) as [| r rest]; [congruence |].
      reflexivity.
  - intros request' db' Hnostaff.
    assert (Hfail : status (fst (AddRefereeToSumulaView.put request' db')) <> 200).
    { intros Hok.
      destruct (add_referee_success_has_staff request' db' Hok)
        as (event' & staff & Hev & Hst).
      rewrite (Hnostaff event' Hev) in Hst. discriminate. }
    split; [exact Hfail | now apply add_referee_failure_writes_nothing].
Qed.

End AddReferee.

(** The monitor of the example claims the open sumula 1, which has no
    referee. *)
Lemma C7_monitor_claims_open_sumula :
  referee_all Classificatoria Example.open_sumula
    (snd (AddRefereeToSumulaView.put (D := Example.staff_only)
            (B := @SpecBase.base Example.staff_only)
            (Example.request_of "PUT" Example.monitor (Example.add_referee_data 1))
            Example.db))
  = [1].
Proof.
  refine (proj2 (proj1 (proj1 (@C7_add_referee_exclusive
                                 Example.staff_only (@SpecBase.base Example.staff_only)
                                 (Example.request_of "PUT" Example.monitor
                                    (Example.add_referee_data 1))
                                 Example.db (JInt 1) (JBool false) 1
                                 Example.event Example.open_sumula
                                 _ _ _ _ _ _ _ _ _)
                          Example.monitor_staff _) _));
    reflexivity.
Defined.

(** ** The player view *)

Lemma filter_id_first_id (v : Variant) (pk : Z) (db : DB) (s : Sumula) :
  Sumula_objects_filter_id_first v pk db = Some s -> sumula_id s = pk.
Proof.
  unfold Sumula_objects_filter_id_first. intros Hfind.
  apply find_some in Hfind. now apply Z.eqb_eq.
Qed.

Lemma has_field_list (k : string) (items : list json) :
  has_field k (JList items) = existsb (has_field k) items.
Proof.
  induction items as [| x rest IH]; [reflexivity |].
  cbn [existsb]. rewrite <- IH. reflexivity.
Qed.

Lemma has_field_mapped (A : Type) (k : string) (f : A -> json) (l : list A) :
  (forall x, has_field k (f x) = false) ->
  has_field k (JList (map f l)) = false.
Proof.
  intros Hf. rewrite has_field_list.
  induction l as [| x rest IH]; [reflexivity |].
  cbn [map existsb]. now rewrite Hf, IH.
Qed.

Lemma user_of_hides_points (uid : Z) (db : DB) :
  has_field "points" (user_of uid db) = false.
Proof.
  unfold user_of. now destruct (find _ (users db)).
Qed.

Lemma player_of_hides_points (pid : Z) (db : DB) :
  has_field "points" (player_of pid db) = false.
Proof.
  unfold player_of. destruct (find _ (players db)) as [p |]; [| reflexivity].
  unfold PlayerSerializer. cbn. now rewrite user_of_hides_points.
Qed.

Lemma referee_of_hides_points (sid : Z) (db : DB) :
  has_field "points" (referee_of sid db) = false.
Proof.
  unfold referee_of. destruct (find _ (staffs db)); [| reflexivity].
  apply user_of_hides_points.
Qed.

Lemma has_field_dict_cons (k k' : string) (x : json) (rest : list (string * json)) :
  has_field k (JDict ((k', x) :: rest))
  = (k' =? k)%string || has_field k x || has_field k (JDict rest).
Proof. reflexivity. Qed.

Lemma score_for_player_hides_points (db : DB) (ps : PlayerScore) :
  has_field "points" (PlayerScoreForPlayerSerializer db ps) = false.
Proof.
  unfold PlayerScoreForPlayerSerializer.
  rewrite !has_field_dict_cons, player_of_hides_points. reflexivity.
Qed.

(** The player view of a sumula has no [points] field at any depth. *)
Lemma player_view_hides_points (v : Variant) (db : DB) (s : Sumula) :
  has_field "points" (SumulaForPlayerSerializer v db s) = false.
Proof.
  unfold SumulaForPlayerSerializer.
  rewrite !has_field_dict_cons.
  rewrite !has_field_mapped
    by (intros; apply referee_of_hides_points || apply score_for_player_hides_points).
  reflexivity.
Qed.

Lemma check_player_permissions {D : Django} (request : Request) (event : Event) :
  check_object_permissions
    [IsAuthenticated.has_object_permission;
     GetSumulaForPlayerPermission.has_object_permission]
    request event
  = GetSumulaForPlayerPermission.has_object_permission request event.
Proof.
  unfold check_object_permissions, IsAuthenticated.has_object_permission.
  simpl. now rewrite andb_true_r.
Qed.

(** The sumulas listed for a player are the active sumulas of the table
    that hold a score of the player. *)
Lemma sumulas_of_active_scores (v : Variant) (player : Player) (db : DB) (s : Sumula) :
  In s (GetSumulaForPlayer.sumulas_of v (PlayerScore_objects_filter_active v player db) db)
  <-> Sumula_objects_filter_id_first v (sumula_id s) db = Some s
      /\ active s = true
      /\ exists ps,
          In ps (player_scores db)
          /\ score_player ps = player_id player
          /\ sumula_fk v ps = Some (sumula_id s).
Proof.
  unfold GetSumulaForPlayer.sumulas_of, PlayerScore_objects_filter_active.
  rewrite in_flat_map. split.
  - intros (ps & Hps & Hs). apply filter_In in Hps. destruct Hps as [Hin Hkeep].
    apply andb_true_iff in Hkeep. destruct Hkeep as [Hplayer Hactive].
    destruct (sumula_fk v ps) as [fk |] eqn:Hfk; [| discriminate].
    destruct (Sumula_objects_filter_id_first v fk db) as [s' |] eqn:Hfind;
      [| discriminate].
    destruct Hs as [-> | []].
    pose proof (filter_id_first_id _ _ _ Hfind) as Hid.
    rewrite Hid. split; [assumption |]. split; [assumption |].
    exists ps. split; [assumption |]. split; [now apply Z.eqb_eq | assumption].
  - intros (Hfind & Hactive & ps & Hin & Hplayer & Hsumula).
    exists ps. rewrite Hsumula, Hfind. split; [| now left].
    apply filter_In. split; [assumption |].
    now rewrite Hsumula, Hfind, Hactive, Hplayer, Z.eqb_refl.
Qed.

(** Every score kept by the query contributes its sumula. *)
Lemma sumulas_of_nil (v : Variant) (player : Player) (db : DB) :
  GetSumulaForPlayer.sumulas_of v (PlayerScore_objects_filter_active v player db) db = []
  <-> PlayerScore_objects_filter_active v player db = [].
Proof.
  split.
  - intros Hnil.
    destruct (PlayerScore_objects_filter_active v player db) as [| ps rest] eqn:Hscores;
      [reflexivity | exfalso].
    assert (Hin : In ps (PlayerScore_objects_filter_active v player db))
      by (rewrite Hscores; now left).
    unfold PlayerScore_objects_filter_active in Hin.
    apply filter_In in Hin. destruct Hin as [_ Hkeep].
    apply andb_true_iff in Hkeep. destruct Hkeep as [_ Hactive].
    unfold GetSumulaForPlayer.sumulas_of in Hnil. cbn [flat_map] in Hnil.
    destruct (sumula_fk v ps) as [fk |]; [| discriminate].
    destruct (Sumula_objects_filter_id_first v fk db); discriminate.
  - intros ->. reflexivity.
Qed.

Section PlayerView.
Context {D : Django} {B : BaseSumulaView}.
Variables (request : Request) (db : DB) (event : Event) (player : Player).

(** The request names an existing event the requester may view, and the
    requester is a player of it. *)
Hypothesis Hevent : get_object request db = Returns event.
Hypothesis Hgate : GetSumulaForPlayerPermission.has_object_permission request event = true.
Hypothesis Hplayer : Player_objects_filter_first (user request) event db = Some player.

Let variant : Variant := if is_imortal player then Imortal else Classificatoria.
Let rows : list Sumula :=
  GetSumulaForPlayer.sumulas_of variant
    (PlayerScore_objects_filter_active variant player db) db.

(** C9: the player view lists exactly the active sumulas of the table of
    the player's eligibility class in which the player has a score; the
    views it produces carry no [points] field; and when there is no such
    sumula the answer is the not-found failure, not an empty list. *)
Theorem C9_player_view :
  (forall s,
      In s rows
      <-> Sumula_objects_filter_id_first variant (sumula_id s) db = Some s
          /\ active s = true
          /\ exists ps,
              In ps (player_scores db)
              /\ score_player ps = player_id player
              /\ sumula_fk variant ps = Some (sumula_id s))
  /\ (rows = [] ->
      GetSumulaForPlayer.get request db
      = (handle_400_error "Jogador não possui nenhuma sumula associada!", db))
  /\ (rows <> [] ->
      GetSumulaForPlayer.get request db
      = (OK (JList (map (SumulaForPlayerSerializer variant db) rows)), db)
      /\ has_field "points" (body (fst (GetSumulaForPlayer.get request db))) = false).
Proof.
  split; [intros s; apply sumulas_of_active_scores |].
  assert (Hget : GetSumulaForPlayer.get request db =
                 match PlayerScore_objects_filter_active variant player db with
                 | [] => (handle_400_error "Jogador não possui nenhuma sumula associada!", db)
                 | _ :: _ =>
                     (OK (JList (map (SumulaForPlayerSerializer variant db) rows)), db)
                 end).
  { unfold GetSumulaForPlayer.get, GetSumulaForPlayer.permission_classes.
    rewrite Hevent, check_player_permissions, Hgate, Hplayer. cbn [negb].
    subst rows variant.
    destruct (is_imortal player);
      now destruct (PlayerScore_objects_filter_active _ player db). }
  split.
  - intros Hnil. apply sumulas_of_nil in Hnil. now rewrite Hget, Hnil.
  - intros Hsome.
    assert (Hscores : PlayerScore_objects_filter_active variant player db <> [])
      by (intros Hnil; apply Hsome; now apply sumulas_of_nil).
    rewrite Hget.
    destruct (PlayerScore_objects_filter_active variant player db); [congruence |].
    split; [reflexivity |].
    cbn [fst body OK]. apply has_field_mapped. intros s. apply player_view_hides_points.
Qed.

End PlayerView.

(** The first player of the example has a score in the open sumula 1 only
    among the active ones; its view carries no points. *)
Lemma C9_player_view_of_example :
  has_field "points"
    (body (fst (GetSumulaForPlayer.get (D := Example.everyone)
                  (B := @SpecBase.base Example.everyone)
                  (Example.request_of "GET" Example.player_user1 JNull) Example.db)))
  = false.
Proof.
  refine (proj2 (proj2 (proj2 (@C9_player_view
                                 Example.everyone (@SpecBase.base Example.everyone)
                                 (Example.request_of "GET" Example.player_user1 JNull)
                                 Example.db Example.event Example.player1 _ _ _)) _));
    try reflexivity.
  vm_compute. discriminate.
Defined.

(** ** Create *)

Lemma set_player_scores_twice (rows rows' : list PlayerScore) (db : DB) :
  set_player_scores rows (set_player_scores rows' db) = set_player_scores rows db.
Proof. reflexivity. Qed.

Lemma player_scores_set (rows : list PlayerScore) (db : DB) :
  player_scores (set_player_scores rows db) = rows.
Proof. reflexivity. Qed.

Lemma set_referees_twice (v : Variant) (rows rows' : list (Z * Z)) (db : DB) :
  set_referees v rows (set_referees v rows' db) = set_referees v rows db.
Proof. now destruct v. Qed.

Lemma set_referees_same (v : Variant) (db : DB) :
  set_referees v (referees v db) db = db.
Proof. now destruct v, db. Qed.

Lemma referee_add_sets (v : Variant) (s : Sumula) (st : Staff) (db : DB) :
  exists rows, referee_add v s st db = set_referees v rows db.
Proof.
  unfold referee_add. destruct (existsb _ _).
  - exists (referees v db). now rewrite set_referees_same.
  - now eexists.
Qed.

Section CreateSpec.
Context {D : Django}.





(** The scores created for a list of players: appended in order, one per
    player, each with zero points and pointing to the sumula. *)
Lemma create_scores_appends (v : Variant) (s : Sumula) (ev : Event)
    (ps : list Player) (db : DB) :
  exists news,
    fold_left (SpecBase.PlayerScore_objects_create v s ev) ps db
    = set_player_scores (player_scores db ++ news) db
    /\ map score_player news = map player_id ps
    /\ Forall (fun row => points row = 0
                          /\ sumula_fk v row = Some (sumula_id s)) news.
Proof.
  revert db. induction ps as [| p rest IH]; intros db.
  - exists []. cbn. rewrite app_nil_r. split; [now destruct db | split; constructor].
  - cbn [fold_left]. destruct (IH (SpecBase.PlayerScore_objects_create v s ev db p))
      as (news & Hfold & Hplayers & Hrows).
    set (row := {| score_id := next_id (map score_id (player_scores db));
                   score_player := player_id p;
                   score_event := event_id ev;
                   sumula_classificatoria :=
                     match v with Classificatoria => Some (sumula_id s) | Imortal => None end;
                   sumula_imortal :=
                     match v with Imortal => Some (sumula_id s) | Classificatoria => None end;
                   points := 0 |}) in *.
    change (SpecBase.PlayerScore_objects_create v s ev db p)
      with (set_player_scores (player_scores db ++ [row]) db) in Hfold.
    rewrite player_scores_set, set_player_scores_twice, <- app_assoc in Hfold.
    exists (row :: news). split; [exact Hfold |]. split.
    + cbn. now rewrite Hplayers.
    + constructor; [| assumption].
      split; [reflexivity |]. subst row. now destruct v.
Qed.

(** Attaching referees writes the referee relation only. *)
Lemma add_referees_sets (v : Variant) (s : Sumula) (ev : Event) (refs : json) (db : DB) :
  exists rows,
    SpecBase.add_referees v s ev refs db = (Returns tt, set_referees v rows db).
Proof.
  unfold SpecBase.add_referees.
  destruct refs as [| | | | items |];
    try (exists (referees v db); now rewrite set_referees_same).
  assert (Hfold : forall db0 rows0,
             staffs db0 = staffs db ->
             db0 = set_referees v rows0 db ->
             exists rows,
               fold_left (fun db e =>
                            match SpecBase.resolve_staff db e with
                            | Some st => referee_add v s st db
                            | None => db
                            end) items db0
               = set_referees v rows db).
  { induction items as [| e rest IH]; intros db0 rows0 Hstaffs Hdb0.
    - exists rows0. exact Hdb0.
    - cbn [fold_left]. destruct (SpecBase.resolve_staff db0 e) as [st |].
      + destruct (referee_add_sets v s st db0) as [rows1 Hadd].
        rewrite Hadd, Hdb0, set_referees_twice.
        apply (IH _ rows1); [now destruct v | reflexivity].
      + now apply (IH _ rows0). }
  destruct (Hfold db (referees v db) eq_refl) as [rows Hrows].
  - now rewrite set_referees_same.
  - exists rows. now rewrite Hrows.
Qed.

End CreateSpec.

Lemma sumulas_set_sumulas (v : Variant) (rows : list Sumula) (db : DB) :
  sumulas v (set_sumulas v rows db) = rows.
Proof. now destruct v. Qed.


Lemma sumulas_set_referees (v v' : Variant) (rows : list (Z * Z)) (db : DB) :
  sumulas v' (set_referees v rows db) = sumulas v' db.
Proof. now destruct v, v'. Qed.

Lemma player_scores_set_referees (v : Variant) (rows : list (Z * Z)) (db : DB) :
  player_scores (set_referees v rows db) = player_scores db.
Proof. now destruct v. Qed.

Lemma player_scores_set_sumulas (v : Variant) (rows : list Sumula) (db : DB) :
  player_scores (set_sumulas v rows db) = player_scores db.
Proof. now destruct v. Qed.

Lemma players_set_sumulas (v : Variant) (rows : list Sumula) (db : DB) :
  players (set_sumulas v rows db) = players db.
Proof. now destruct v. Qed.

Section Create.
Context {D : Django}.
Variables (v : Variant) (request : Request) (db : DB).
Variables (nm : string) (items : list json) (event : Event).

(** The request is well formed: an object with a name, a list of player
    references and referees that resolve; it names an existing event on
    which the requester holds the add permission. *)
Hypothesis Hdict : SpecBase.validate_request_data_dict (data request) = true.
Hypothesis Hname : SpecBase.char_field (data request) "name" = Some nm.
Hypothesis Hplayers : SpecBase.entries (data request) "players" = Some items.
Hypothesis Hvalid_players : SpecBase.validate_players db (data request) = true.
Hypothesis Hvalid_referees : SpecBase.validate_referees db (data request) = true.
Hypothesis Hevent : SpecBase.get_object request db = Returns event.
Hypothesis Hgate : HasSumulaPermission.has_object_permission request event = true.

(** The row of the new sumula. *)
Let row : Sumula :=
  {| sumula_id := next_id (map sumula_id (sumulas v db));
     sumula_event := event_id event;
     name := nm;
     active := true |}.



End Create.



(** ** Update/close with the base class of the specification *)

Section ScoreWrites.
Context {D : Django}.

Lemma set_points_ids (sid pts : Z) (rows : list PlayerScore) :
  map score_id (SpecBase.set_points sid pts rows) = map score_id rows.
Proof.
  unfold SpecBase.set_points. rewrite map_map. apply map_ext.
  intros ps. now destruct (score_id ps =? sid).
Qed.

Lemma find_set_points (sid sid' pts : Z) (rows : list PlayerScore) :
  find (fun ps => score_id ps =? sid) (SpecBase.set_points sid' pts rows)
  = if sid =? sid'
    then option_map (SpecBase.with_points pts) (find (fun ps => score_id ps =? sid) rows)
    else find (fun ps => score_id ps =? sid) rows.
Proof.
  induction rows as [| ps rest IH].
  - now destruct (sid =? sid').
  - cbn [SpecBase.set_points map find]. fold (SpecBase.set_points sid' pts rest).
    rewrite IH.
    destruct (score_id ps =? sid') eqn:Hps, (sid =? sid') eqn:Hsid; cbn [score_id SpecBase.with_points];
      destruct (score_id ps =? sid) eqn:Hid; try reflexivity;
      apply Z.eqb_eq in Hps || apply Z.eqb_neq in Hps;
      apply Z.eqb_eq in Hsid || apply Z.eqb_neq in Hsid;
      apply Z.eqb_eq in Hid || apply Z.eqb_neq in Hid; lia.
Qed.

(** With unique keys the row a lookup finds is the only one of that key. *)
Lemma find_unique (sid : Z) (rows : list PlayerScore) (ps r : PlayerScore) :
  NoDup (map score_id rows) ->
  find (fun ps => score_id ps =? sid) rows = Some ps ->
  In r rows -> score_id r = sid -> r = ps.
Proof.
  induction rows as [| x rest IH]; [contradiction |].
  cbn [map find]. intros Hnodup Hfind Hin Hid.
  apply NoDup_cons_iff in Hnodup. destruct Hnodup as [Hx Hrest].
  destruct (score_id x =? sid) eqn:Hxid.
  - injection Hfind as <-. apply Z.eqb_eq in Hxid.
    destruct Hin as [-> | Hin]; [reflexivity |].
    exfalso. apply Hx. rewrite Hxid, <- Hid. now apply in_map.
  - apply Z.eqb_neq in Hxid. destruct Hin as [-> | Hin]; [contradiction |].
    now apply IH.
Qed.

(** Writing the points of a score leaves the aggregate of every player who
    does not own a score of that key. *)
Lemma aggregate_set_points (pid ev sid pts : Z) (rows : list PlayerScore) :
  (forall r, In r rows -> score_id r = sid -> score_player r <> pid) ->
  SpecBase.aggregate pid ev (SpecBase.set_points sid pts rows)
  = SpecBase.aggregate pid ev rows.
Proof.
  unfold SpecBase.aggregate. induction rows as [| x rest IH]; [reflexivity |].
  intros Hother. cbn [SpecBase.set_points map filter]. fold (SpecBase.set_points sid pts rest).
  assert (IH' := IH (fun r Hr => Hother r (or_intror Hr))).
  destruct (score_id x =? sid) eqn:Hxid.
  - apply Z.eqb_eq in Hxid. pose proof (Hother x (or_introl eq_refl) Hxid) as Hneq.
    apply Z.eqb_neq in Hneq. cbn [score_player score_event SpecBase.with_points].
    rewrite Hneq. cbn [andb]. exact IH'.
  - destruct ((score_player x =? pid) && (score_event x =? ev));
      cbn [map fold_right]; now rewrite IH'.
Qed.

Lemma write_score_rows (db : DB) (sid pts : Z) :
  player_scores (SpecBase.write_score db (sid, pts))
  = SpecBase.set_points sid pts (player_scores db).
Proof.
  unfold SpecBase.write_score. cbv zeta. rewrite player_scores_set.
  now destruct (find _ (SpecBase.set_points sid pts (player_scores db))).
Qed.

Lemma write_score_ids (db : DB) (w : Z * Z) :
  map score_id (player_scores (SpecBase.write_score db w))
  = map score_id (player_scores db).
Proof. destruct w as [sid pts]. now rewrite write_score_rows, set_points_ids. Qed.

(** A score write keeps the totals that agreed with the rows, and makes
    the total of the owner of the written score agree. *)
Lemma write_score_consistent (db : DB) (sid pts pid : Z) :
  NoDup (map score_id (player_scores db)) ->
  SpecBase.consistent_total pid db
  \/ (exists ps, find (fun ps => score_id ps =? sid) (player_scores db) = Some ps
                 /\ score_player ps = pid) ->
  SpecBase.consistent_total pid (SpecBase.write_score db (sid, pts)).
Proof.
  intros Hnodup Hbefore p Hp Hpid.
  rewrite write_score_rows.
  unfold SpecBase.write_score in Hp. cbv zeta in Hp.
  rewrite player_scores_set, find_set_points, Z.eqb_refl in Hp.
  destruct (find (fun ps => score_id ps =? sid) (player_scores db)) as [ps0 |] eqn:Hfind.
  - cbn [option_map score_player SpecBase.with_points] in Hp.
    unfold SpecBase.recompute_total in Hp. cbn [players set_players set_player_scores] in Hp.
    apply in_map_iff in Hp. destruct Hp as (p0 & Hp0 & Hin0).
    cbn [player_scores] in Hp0.
    destruct (player_id p0 =? score_player ps0) eqn:Howner.
    + apply Z.eqb_eq in Howner. subst p. cbn [player_id SpecBase.with_total] in Hpid.
      cbn [total_score player_event SpecBase.with_total].
      rewrite player_scores_set. congruence.
    + apply Z.eqb_neq in Howner. subst p0.
      destruct Hbefore as [Hbefore | (ps & Hps & Hpsid)]; [| congruence].
      rewrite aggregate_set_points; [now apply Hbefore |].
      intros r Hr Hrid. rewrite (find_unique _ _ Hnodup Hfind Hr Hrid). congruence.
  - cbn [option_map players set_player_scores] in Hp.
    destruct Hbefore as [Hbefore | (ps & Hps & _)]; [| discriminate].
    rewrite aggregate_set_points; [now apply Hbefore |].
    intros r Hr Hrid. exfalso.
    pose proof (find_none _ _ Hfind r Hr) as Hnone. cbn beta in Hnone.
    apply Z.eqb_neq in Hnone. contradiction.
Qed.

Lemma write_scores_consistent (writes : list (Z * Z)) (db : DB) (pid : Z) :
  NoDup (map score_id (player_scores db)) ->
  SpecBase.consistent_total pid db ->
  SpecBase.consistent_total pid (fold_left SpecBase.write_score writes db).
Proof.
  revert db. induction writes as [| [sid pts] rest IH]; intros db Hnodup Hbefore;
    [exact Hbefore |].
  cbn [fold_left]. apply IH.
  - now rewrite write_score_ids.
  - apply write_score_consistent; [assumption | now left].
Qed.

Lemma write_scores_other (writes : list (Z * Z)) (db : DB) (sid : Z) :
  ~ In sid (map fst writes) ->
  find (fun ps => score_id ps =? sid) (player_scores (fold_left SpecBase.write_score writes db))
  = find (fun ps => score_id ps =? sid) (player_scores db).
Proof.
  revert db. induction writes as [| [sid' pts] rest IH]; intros db Hnotin;
    [reflexivity |].
  cbn [fold_left]. cbn [map fst In] in Hnotin.
  rewrite IH by tauto. rewrite write_score_rows, find_set_points.
  destruct (sid =? sid') eqn:Hsid; [| reflexivity].
  apply Z.eqb_eq in Hsid. exfalso. apply Hnotin. now left.
Qed.

(** After a batch of writes with distinct keys, every written score holds
    the points of its entry and the total of its owner agrees with the
    rows. *)
Lemma write_scores_written (writes : list (Z * Z)) (db : DB) (sid pts : Z)
    (ps : PlayerScore) :
  NoDup (map score_id (player_scores db)) ->
  NoDup (map fst writes) ->
  In (sid, pts) writes ->
  find (fun ps => score_id ps =? sid) (player_scores db) = Some ps ->
  find (fun ps => score_id ps =? sid)
       (player_scores (fold_left SpecBase.write_score writes db))
  = Some (SpecBase.with_points pts ps)
  /\ SpecBase.consistent_total (score_player ps)
       (fold_left SpecBase.write_score writes db).
Proof.
  revert db ps. induction writes as [| [sid' pts'] rest IH];
    intros db ps Hnodup Hwrites Hin Hfind; [contradiction |].
  cbn [map fst] in Hwrites. apply NoDup_cons_iff in Hwrites.
  destruct Hwrites as [Hfresh Hrest]. cbn [fold_left].
  destruct Hin as [[= -> ->] | Hin].
  - split.
    + rewrite write_scores_other by assumption.
      now rewrite write_score_rows, find_set_points, Z.eqb_refl, Hfind.
    + apply write_scores_consistent; [now rewrite write_score_ids |].
      apply write_score_consistent; [assumption | right; now exists ps].
  - assert (Hneq : sid <> sid').
    { intros ->. apply Hfresh. change sid' with (fst (sid', pts)). now apply in_map. }
    apply IH; try assumption.
    + now rewrite write_score_ids.
    + apply Z.eqb_neq in Hneq. now rewrite write_score_rows, find_set_points, Hneq.
Qed.

Lemma write_scores_players_sumulas (writes : list (Z * Z)) (db : DB) (v : Variant) :
  sumulas v (fold_left SpecBase.write_score writes db) = sumulas v db
  /\ referees v (fold_left SpecBase.write_score writes db) = referees v db.
Proof.
  revert db. induction writes as [| [sid pts] rest IH]; intros db; [now split |].
  cbn [fold_left]. destruct (IH (SpecBase.write_score db (sid, pts))) as [-> ->].
  unfold SpecBase.write_score. cbv zeta.
  destruct (find _ _); now destruct v.
Qed.

End ScoreWrites.

Section ResolvedEntries.
Context {D : Django}.

Lemma resolve_all_Forall2 (A : Type) (f : json -> option A) (items : list json)
    (l : list A) :
  SpecBase.resolve_all f items = Some l ->
  Forall2 (fun e a => f e = Some a) items l.
Proof.
  revert l. induction items as [| e rest IH]; intros l; cbn.
  - intros [= <-]. constructor.
  - destruct (f e) as [a |] eqn:Ha; [| discriminate].
    destruct (SpecBase.resolve_all f rest) as [l' |]; [| discriminate].
    intros [= <-]. constructor; [assumption | now apply IH].
Qed.

Lemma resolve_staff_id (db : DB) (e : json) (st : Staff) :
  SpecBase.resolve_staff db e = Some st -> SpecBase.entry_id e = Some (staff_id st).
Proof.
  unfold SpecBase.resolve_staff.
  destruct (SpecBase.entry_id e) as [i |]; [| discriminate].
  intros Hfind. apply find_some in Hfind. destruct Hfind as [_ Hid].
  apply Z.eqb_eq in Hid. now rewrite Hid.
Qed.

Lemma resolve_score_inv (v : Variant) (pk : Z) (db : DB) (e : json) (sid pts : Z) :
  SpecBase.resolve_score v pk db e = Some (sid, pts) ->
  SpecBase.entry_id e = Some sid
  /\ subscript e "points" = Some (JInt pts)
  /\ exists ps, find (fun ps => score_id ps =? sid) (player_scores db) = Some ps.
Proof.
  unfold SpecBase.resolve_score.
  destruct (SpecBase.entry_id e) as [i |]; [| discriminate].
  destruct (subscript e "points") as [[] |]; try discriminate.
  destruct (find (fun ps => score_id ps =? i) (player_scores db)) as [ps |] eqn:Hfind;
    [| discriminate].
  destruct (sumula_fk v ps) as [fk |]; [| discriminate].
  destruct (fk =? pk); [| discriminate].
  intros [= <- <-]. repeat split. now exists ps.
Qed.

(** The staff ids a resolved list of references stands for. *)
Lemma resolved_staff_ids (db : DB) (refs : list json) (rows : list Staff) (i : Z) :
  SpecBase.resolve_all (SpecBase.resolve_staff db) refs = Some rows ->
  In i (map staff_id rows) <-> exists e, In e refs /\ SpecBase.entry_id e = Some i.
Proof.
  intros Hrows. apply resolve_all_Forall2 in Hrows.
  induction Hrows as [| e st refs rows Hst Hrest IH].
  - split; [contradiction | intros (e & [] & _)].
  - apply resolve_staff_id in Hst. cbn [map In]. rewrite IH. split.
    + intros [<- | (e' & He' & Hid)].
      * exists e. split; [now left | assumption].
      * exists e'. split; [now right | assumption].
    + intros (e' & [<- | He'] & Hid).
      * left. congruence.
      * right. now exists e'.
Qed.

(** Replacing the referee set leaves exactly the given staff. *)
Lemma referee_all_referee_set (v : Variant) (s : Sumula) (ids : list Z) (db : DB) :
  referee_all v s (SpecBase.referee_set v s ids db) = nodup Z.eq_dec ids.
Proof.
  unfold referee_all, SpecBase.referee_set.
  rewrite referees_set_referees, filter_app, map_app.
  assert (Hold : forall rows,
             filter (fun r : Z * Z => fst r =? sumula_id s)
                    (filter (fun r => negb (fst r =? sumula_id s)) rows) = []).
  { induction rows as [| r rest IH]; [reflexivity |].
    cbn [filter]. destruct (fst r =? sumula_id s) eqn:Hr; cbn [negb filter];
      [assumption | now rewrite Hr]. }
  assert (Hnew : forall l,
             map snd (filter (fun r : Z * Z => fst r =? sumula_id s)
                             (map (fun i => (sumula_id s, i)) l)) = l).
  { induction l as [| i rest IH]; [reflexivity |].
    cbn [map filter fst]. rewrite Z.eqb_refl. cbn [map snd]. now rewrite IH. }
  now rewrite Hold, Hnew.
Qed.

Lemma Forall2_in_left (A C : Type) (R : A -> C -> Prop) (l : list A) (l' : list C)
    (x : A) :
  Forall2 R l l' -> In x l -> exists y, In y l' /\ R x y.
Proof.
  induction 1 as [| a c l l' Hac Hrest IH]; [contradiction |].
  intros [<- | Hin].
  - exists c. split; [now left | assumption].
  - destruct (IH Hin) as (y & Hy & Hxy). exists y. split; [now right | assumption].
Qed.

(** Entries with distinct ids resolve to writes with distinct keys. *)
Lemma resolved_scores_distinct (v : Variant) (pk : Z) (db : DB) (items : list json)
    (writes : list (Z * Z)) :
  SpecBase.resolve_all (SpecBase.resolve_score v pk db) items = Some writes ->
  NoDup (map SpecBase.entry_id items) ->
  NoDup (map fst writes).
Proof.
  intros Hwrites Hdistinct. apply resolve_all_Forall2 in Hwrites.
  apply (NoDup_map_inv (@Some Z)).
  replace (map (@Some Z) (map fst writes)) with (map SpecBase.entry_id items);
    [assumption |].
  induction Hwrites as [| e [sid pts] items writes He Hrest IH]; [reflexivity |].
  apply resolve_score_inv in He. destruct He as (He & _).
  apply NoDup_cons_iff in Hdistinct. destruct Hdistinct as [_ Hdistinct].
  cbn [map fst]. now rewrite He, (IH Hdistinct).
Qed.

Lemma referees_set_sumulas (v v' : Variant) (rows : list Sumula) (db : DB) :
  referees v' (set_sumulas v rows db) = referees v' db.
Proof. now destruct v, v'. Qed.

Lemma find_Sumula_save (v : Variant) (row sumula : Sumula) (db : DB) :
  Sumula_objects_filter_id_first v (sumula_id row) db = Some sumula ->
  Sumula_objects_filter_id_first v (sumula_id row) (SpecBase.Sumula_save v row db)
  = Some row.
Proof.
  unfold Sumula_objects_filter_id_first, SpecBase.Sumula_save.
  rewrite sumulas_set_sumulas.
  induction (sumulas v db) as [| x rest IH]; [discriminate |].
  cbn [map find]. destruct (sumula_id x =? sumula_id row) eqn:Hx.
  - now rewrite Z.eqb_refl.
  - now rewrite Hx.
Qed.

End ResolvedEntries.

Section UpdateSpec.
Context {D : Django}.
Variables (v : Variant) (request : Request) (db : DB).
Variables (j : json) (pk : Z) (sumula : Sumula) (event : Event).

(** The request is well formed, names an existing sumula of the table and
    carries the id of an existing event. *)
Hypothesis Hdict : SpecBase.validate_request_data_dict (data request) = true.
Hypothesis Hfields : all_in ["id"; "name"; "description"] (data request) = Some true.
Hypothesis Hscores :
  v = Classificatoria -> SpecBase.validate_players_score db (data request) = true.
Hypothesis Hid : subscript (data request) "id" = Some j.
Hypothesis Htruthy : truthy j = true.
Hypothesis Hpk : pk_to_python j = Some pk.
Hypothesis Hsumula : Sumula_objects_filter_id_first v pk db = Some sumula.
Hypothesis Hevent : SpecBase.get_object request db = Returns event.

Lemma update_close_spec_resolved :
  update_close (B := SpecBase.base) v request db =
  if negb (HasSumulaPermission.has_object_permission request event)
  then (permission_denied, db)
  else
    let update :=
      match SpecBase.update_sumula request v sumula event db with
      | (Raises e, db') => (handle_400_error e, db')
      | (Returns _, db') => (OK JNull, db')
      end in
    if negb (email (user request) =? admin_email event)%string then
      match Staff_objects_filter_first (user request) event db with
      | None => (handle_400_error "Usuário não é um monitor do evento!", db)
      | Some staff =>
          if negb (active sumula) && negb (is_manager staff)
          then (handle_400_error SUMULA_IS_CLOSED_ERROR_MESSAGE, db)
          else update
      end
    else update.
Proof.
  rewrite (@update_close_resolved D (@SpecBase.base D) v request db j pk sumula event
             Hdict Hfields Hscores Hid Htruthy Hpk Hsumula Hevent).
  cbn [validate_if_staff_is_sumula_referee update_sumula SpecBase.base].
  unfold SpecBase.validate_if_staff_is_sumula_referee.
  now destruct (Staff_objects_filter_first (user request) event db).
Qed.



(** C2: after a successful update/close the sumula carries the supplied
    name and is closed, its referee set is exactly the supplied one, every
    supplied score holds the supplied points, and the total of the owner
    of each of them is the sum of the points of the owner's scores in the
    event. *)
Theorem C2_update_close_effects (refs items : list json) :
  status (fst (update_close (B := SpecBase.base) v request db)) = 200 ->
  NoDup (map score_id (player_scores db)) ->
  SpecBase.entries (data request) "referee" = Some refs ->
  SpecBase.entries (data request) "players_score" = Some items ->
  NoDup (map SpecBase.entry_id items) ->
  let db' := snd (update_close (B := SpecBase.base) v request db) in
  exists closed,
    Sumula_objects_filter_id_first v pk db' = Some closed
    /\ SpecBase.char_field (data request) "name" = Some (name closed)
    /\ active closed = false
    /\ (forall i,
           In i (referee_all v closed db')
           <-> exists e, In e refs /\ SpecBase.entry_id e = Some i)
    /\ (forall e,
           In e items ->
           exists ps pts,
             In ps (player_scores db')
             /\ SpecBase.entry_id e = Some (score_id ps)
             /\ subscript e "points" = Some (JInt pts)
             /\ points ps = pts
             /\ forall p,
                 In p (players db') ->
                 player_id p = score_player ps ->
                 total_score p
                 = SpecBase.aggregate (player_id p) (player_event p) (player_scores db')).
Proof.
  intros Hok Hkeys Hrefs Hitems Hdistinct db'.
  assert (Hupdate : exists u,
             SpecBase.update_sumula request v sumula event db = (Returns u, db')).
  { subst db'. revert Hok. rewrite update_close_spec_resolved. cbv zeta.
    destruct (SpecBase.update_sumula request v sumula event db) as [[u | e] db2];
      repeat match goal with
             | |- context [match ?x with _ => _ end] => destruct x
             end;
      cbn [fst snd status handle_400_error permission_denied OK];
      intros Hok; try discriminate; now exists u. }
  destruct Hupdate as [u Hupdate].
  unfold SpecBase.update_sumula in Hupdate. cbv zeta in Hupdate.
  rewrite Hrefs, Hitems in Hupdate.
  destruct (SpecBase.char_field (data request) "name") as [nm |] eqn:Hname;
    [| discriminate].
  destruct (SpecBase.resolve_all (SpecBase.resolve_staff db) refs)
    as [staff_rows |] eqn:Hstaff; [| discriminate].
  destruct (SpecBase.resolve_all (SpecBase.resolve_score v (sumula_id sumula) db) items)
    as [writes |] eqn:Hwrites; [| discriminate].
  injection Hupdate as _ Hdb'.
  pose proof (filter_id_first_id _ _ _ Hsumula) as Hsid.
  set (closed := {| sumula_id := sumula_id sumula; sumula_event := sumula_event sumula;
                    name := nm; active := false |}) in *.
  set (db1 := SpecBase.referee_set v sumula (map staff_id staff_rows) db) in *.
  set (db2 := fold_left SpecBase.write_score writes db1) in *.
  destruct (write_scores_players_sumulas writes db1 v) as [Hsumulas2 Hreferees2].
  fold db2 in Hsumulas2, Hreferees2.
  exists closed. rewrite <- Hdb'. split; [| split; [reflexivity | split; [reflexivity |]]].
  - rewrite <- Hsid. change (sumula_id sumula) with (sumula_id closed).
    apply find_Sumula_save with (sumula := sumula).
    unfold Sumula_objects_filter_id_first. rewrite Hsumulas2.
    subst db1. unfold SpecBase.referee_set. rewrite sumulas_set_referees.
    cbn [sumula_id closed]. rewrite Hsid. exact Hsumula.
  - split.
    + intros i.
      assert (Hall : referee_all v closed (SpecBase.Sumula_save v closed db2)
                     = nodup Z.eq_dec (map staff_id staff_rows)).
      { rewrite <- (referee_all_referee_set v sumula (map staff_id staff_rows) db).
        unfold referee_all, SpecBase.Sumula_save.
        now rewrite referees_set_sumulas, Hreferees2. }
      rewrite Hall, nodup_In. exact (resolved_staff_ids db refs i Hstaff).
    + intros e He.
      pose proof Hwrites as Hall2. apply resolve_all_Forall2 in Hall2.
      apply (Forall2_in_left e Hall2) in He.
      destruct He as ([sid pts] & Hw & Hresolve).
      apply resolve_score_inv in Hresolve.
      destruct Hresolve as (Hentry & Hpoints & ps0 & Hfind).
      assert (Hrows1 : player_scores db1 = player_scores db)
        by (subst db1; apply player_scores_set_referees).
      destruct (@write_scores_written writes db1 sid pts ps0) as [Hwritten Htotal].
      * now rewrite Hrows1.
      * eapply resolved_scores_distinct; eassumption.
      * assumption.
      * now rewrite Hrows1.
      * fold db2 in Hwritten, Htotal.
        exists (SpecBase.with_points pts ps0), pts.
        unfold SpecBase.Sumula_save.
        rewrite player_scores_set_sumulas, players_set_sumulas.
        apply find_some in Hwritten. destruct Hwritten as [Hin Hkey].
        apply Z.eqb_eq in Hkey.
        split; [assumption |]. split; [now rewrite Hkey |].
        split; [assumption |]. split; [reflexivity |].
        intros p Hp Hpid. rewrite Hpid. now apply Htotal.
Qed.

End UpdateSpec.


(** The same request leaves the sumula 1 closed under its new name. *)
Lemma C2_close_of_example :
  exists closed,
    Sumula_objects_filter_id_first Classificatoria 1
      (snd (update_close (D := Example.staff_only)
              (B := @SpecBase.base Example.staff_only)
              Classificatoria
              (Example.request_of "PUT" Example.monitor Example.close_data) Example.db))
    = Some closed
    /\ name closed = "chave A final"
    /\ active closed = false.
Proof.
  destruct (@C2_update_close_effects
              Example.staff_only Classificatoria
              (Example.request_of "PUT" Example.monitor Example.close_data)
              Example.db (JInt 1) 1 Example.open_sumula Example.event
              eq_refl eq_refl (fun _ => eq_refl) eq_refl eq_refl eq_refl eq_refl eq_refl
              [Example.entry 2; Example.entry 1]
              [Example.score_entry 1 10; Example.score_entry 2 15])
    as (closed & Hfound & Hname & Hclosed & _).
  - reflexivity.
  - cbn. repeat constructor; cbn; intuition discriminate.
  - reflexivity.
  - reflexivity.
  - cbn. repeat constructor; cbn; intuition discriminate.
  - exists closed. split; [exact Hfound |]. split; [| exact Hclosed].
    cbn in Hname. congruence.
Defined.

(** ** Irreversibility of closing *)

Lemma closed_stays_closed_refl (rows : list Sumula) : closed_stays_closed rows rows.
Proof.
  exists rows, []. split; [now rewrite app_nil_r |].
  induction rows; constructor; auto.
Qed.

Lemma closed_stays_closed_new (rows : list Sumula) (row : Sumula) :
  closed_stays_closed rows (rows ++ [row]).
Proof.
  exists rows, [row]. split; [reflexivity |].
  induction rows; constructor; auto.
Qed.

Lemma closed_stays_closed_save (rows : list Sumula) (row : Sumula) :
  active row = false ->
  closed_stays_closed rows
    (map (fun s => if sumula_id s =? sumula_id row then row else s) rows).
Proof.
  intros Hclosed. eexists _, []. split; [now rewrite app_nil_r |].
  induction rows as [| s rest IH]; constructor; [| exact IH].
  destruct (sumula_id s =? sumula_id row) eqn:Hs.
  - apply Z.eqb_eq in Hs. now split.
  - now split.
Qed.

Lemma closed_stays_closed_trans (rows1 rows2 rows3 : list Sumula) :
  closed_stays_closed rows1 rows2 ->
  closed_stays_closed rows2 rows3 ->
  closed_stays_closed rows1 rows3.
Proof.
  intros (kept1 & added1 & -> & Hkept1) (kept2 & added2 & -> & Hkept2).
  apply Forall2_app_inv_l in Hkept2.
  destruct Hkept2 as (kept & added & Hkept & _ & ->).
  exists kept, (added ++ added2). split; [now rewrite app_assoc |].
  clear added1 added added2. revert kept Hkept.
  induction Hkept1 as [| s1 s2 rows1 kept1 [Hid Hclosed] Hrest IH];
    intros kept Hkept; inversion Hkept as [| s2' s3 kept1' kept' [Hid' Hclosed'] Hrest'];
    subst; constructor.
  - split; [congruence | auto].
  - now apply IH.
Qed.

Section Irreversibility.
Context {D : Django}.

Lemma create_players_score_sumulas (players : json) (v v' : Variant) (s : Sumula)
    (ev : Event) (db : DB) :
  sumulas v' (snd (SpecBase.create_players_score players v s ev db)) = sumulas v' db.
Proof.
  unfold SpecBase.create_players_score.
  destruct players; try reflexivity.
  destruct (SpecBase.resolve_all _ _) as [ps |]; [| reflexivity].
  destruct (create_scores_appends v s ev ps db) as (news & -> & _).
  now destruct v'.
Qed.

Lemma add_referees_sumulas (v v' : Variant) (s : Sumula) (ev : Event) (refs : json)
    (db : DB) :
  sumulas v' (snd (SpecBase.add_referees v s ev refs db)) = sumulas v' db.
Proof.
  destruct (add_referees_sets v s ev refs db) as (rows & ->).
  apply sumulas_set_referees.
Qed.

(** The update of the specification closes the sumula it saves and leaves
    the other rows as they are. *)
Lemma update_sumula_closed (request : Request) (v v' : Variant) (s : Sumula)
    (ev : Event) (db : DB) :
  closed_stays_closed (sumulas v' db)
    (sumulas v' (snd (SpecBase.update_sumula request v s ev db))).
Proof.
  unfold SpecBase.update_sumula. cbv zeta.
  repeat match goal with
         | |- context [match ?x with _ => _ end] =>
             destruct x; try apply closed_stays_closed_refl
         end.
  cbn [snd]. unfold SpecBase.Sumula_save.
  match goal with
  | |- context [fold_left SpecBase.write_score ?w ?d] =>
      destruct (write_scores_players_sumulas w d Classificatoria) as [Hc _];
      destruct (write_scores_players_sumulas w d Imortal) as [Hi _]
  end.
  unfold SpecBase.referee_set in *. rewrite sumulas_set_referees in Hc, Hi.
  destruct v, v';
    cbn [sumulas set_sumulas sumulas_classificatoria sumulas_imortal] in *;
    rewrite ?Hc, ?Hi;
    try apply closed_stays_closed_refl;
    now apply closed_stays_closed_save.
Qed.

Lemma create_closed (v v' : Variant) (request : Request) (db : DB) :
  closed_stays_closed (sumulas v' db)
    (sumulas v' (snd (create (B := SpecBase.base) v request db))).
Proof.
  destruct v; unfold create;
    [unfold SumulaClassificatoriaView.post | unfold SumulaImortalView.post];
    unfold Sumula_objects_create; cbv beta iota zeta;
    cbn [validate_request_data_dict validate_players validate_referees
         get_object create_players_score add_referees SpecBase.base];
    repeat match goal with
           | |- context [SpecBase.create_players_score ?p ?v ?s ?e ?d] =>
               let H := fresh "Hscores" in
               pose proof (create_players_score_sumulas p v v' s e d) as H;
               destruct (SpecBase.create_players_score p v s e d) as [[] ?];
               cbn [snd] in H
           | |- context [SpecBase.add_referees ?v ?s ?e ?r ?d] =>
               let H := fresh "Hreferees" in
               pose proof (add_referees_sumulas v v' s e r d) as H;
               destruct (SpecBase.add_referees v s e r d) as [[] ?];
               cbn [snd] in H
           | |- context [match ?x with _ => _ end] => destruct x
           end;
    cbn [snd fst Sumula_objects_create] in *;
    try apply closed_stays_closed_refl;
    repeat match goal with
           | H : sumulas v' _ = _ |- _ => rewrite H; clear H
           end;
    destruct v'; cbn [sumulas set_sumulas sumulas_classificatoria sumulas_imortal];
    try apply closed_stays_closed_refl;
    apply closed_stays_closed_new.
Qed.

Lemma update_close_closed (v v' : Variant) (request : Request) (db : DB) :
  closed_stays_closed (sumulas v' db)
    (sumulas v' (snd (update_close (B := SpecBase.base) v request db))).
Proof.
  destruct v; unfold update_close;
    [unfold SumulaClassificatoriaView.put | unfold SumulaImortalView.put];
    cbv zeta;
    cbn [validate_request_data_dict validate_players_score get_object update_sumula
         validate_if_staff_is_sumula_referee SpecBase.base];
    repeat match goal with
           | |- context [SpecBase.update_sumula ?r ?v ?s ?e ?d] =>
               let H := fresh "Hupdate" in
               pose proof (update_sumula_closed r v v' s e d) as H;
               destruct (SpecBase.update_sumula r v s e d) as [[] ?];
               cbn [snd] in H
           | |- context [match ?x with _ => _ end] => destruct x
           end;
    cbn [snd]; try apply closed_stays_closed_refl; assumption.
Qed.

Lemma add_referee_sumulas {B : BaseSumulaView} (v' : Variant) (request : Request)
    (db : DB) :
  sumulas v' (snd (AddRefereeToSumulaView.put request db)) = sumulas v' db.
Proof.
  unfold AddRefereeToSumulaView.put. cbv zeta.
  repeat match goal with
         | |- context [match ?x with _ => _ end] => destruct x
         end;
    cbn [snd]; try reflexivity.
  all: match goal with
       | |- context [referee_add ?v ?s ?st ?d] =>
           destruct (referee_add_sets v s st d) as [rows ->]
       end; apply sumulas_set_referees.
Qed.

Lemma reads_write_nothing {B : BaseSumulaView} (request : Request) (db : DB) :
  snd (GetSumulasView.get request db) = db
  /\ snd (ActiveSumulaView.get request db) = db
  /\ snd (FinishedSumulaView.get request db) = db
  /\ snd (GetSumulaForPlayer.get request db) = db.
Proof.
  unfold GetSumulasView.get, ActiveSumulaView.get, FinishedSumulaView.get,
    GetSumulaForPlayer.get.
  repeat split;
    repeat match goal with
           | |- context [match ?x with _ => _ end] => destruct x
           end;
    reflexivity.
Qed.

Lemma run_closed (op : operation) (request : Request) (db : DB) (v : Variant) :
  closed_stays_closed (sumulas v db)
    (sumulas v (snd (run (B := SpecBase.base) op request db))).
Proof.
  destruct (reads_write_nothing (B := SpecBase.base) request db)
    as (Hall & Hactive & Hfinished & Hplayer).
  destruct op; unfold run.
  - rewrite Hall. apply closed_stays_closed_refl.
  - rewrite Hactive. apply closed_stays_closed_refl.
  - rewrite Hfinished. apply closed_stays_closed_refl.
  - rewrite Hplayer. apply closed_stays_closed_refl.
  - apply create_closed.
  - apply update_close_closed.
  - rewrite add_referee_sumulas. apply closed_stays_closed_refl.
Qed.

(** C3: whatever the operations and their requests, in any number and
    order, every sumula row is kept under its key and a row whose active
    flag was false still has it false afterwards: no operation reopens a
    closed sumula. *)
Theorem C3_closed_is_irreversible (calls : list (operation * Request)) (db : DB)
    (v : Variant) :
  closed_stays_closed (sumulas v db)
    (sumulas v (run_all (B := SpecBase.base) calls db)).
Proof.
  revert db. induction calls as [| [op request] rest IH]; intros db.
  - apply closed_stays_closed_refl.
  - cbn [run_all].
    apply closed_stays_closed_trans
      with (rows2 := sumulas v (snd (run (B := SpecBase.base) op request db))).
    + apply run_closed.
    + apply IH.
Qed.

End Irreversibility.

(** * Further properties of the views *)

(** ** Permission and writes *)

Section Unauthorized.
Context {D : Django} {B : BaseSumulaView}.

(** X1: a requester whom the permission classes of the operation refuse on
    the event of the request never changes the store and never receives a
    200 or 201 answer, whatever the operation and the payload. *)
Theorem X1_refused_requester_writes_nothing (op : operation) (request : Request)
    (db : DB) :
  (forall event,
      get_object request db = Returns event ->
      check_object_permissions (permission_classes_of op) request event = false) ->
  snd (run op request db) = db
  /\ status (fst (run op request db)) <> 200
  /\ status (fst (run op request db)) <> 201.
Proof.
  intros Hrefused.
  destruct op as [| | | | [|] | [|] |]; cbn [permission_classes_of] in Hrefused;
    unfold run, create, update_close,
      GetSumulasView.get, ActiveSumulaView.get, FinishedSumulaView.get,
      GetSumulaForPlayer.get, SumulaClassificatoriaView.post,
      SumulaImortalView.post, SumulaClassificatoriaView.put, SumulaImortalView.put,
      AddRefereeToSumulaView.put;
    cbv zeta;
    destruct (get_object request db) as [event | e] eqn:Hevent;
    try rewrite (Hrefused event eq_refl); cbn [negb];
    repeat match goal with
           | |- context [match ?x with _ => _ end] => destruct x
           end;
    cbn; repeat split; try reflexivity; discriminate.
Qed.


End Unauthorized.

(** An outsider without any grant sends the create of the example. *)
Lemma X1_outsider_create_writes_nothing :
  snd (run (D := Example.staff_only) (B := @SpecBase.base Example.staff_only)
         (OpCreate Classificatoria)
         (Example.request_of "POST" Example.outsider Example.create_data) Example.db)
  = Example.db.
Proof.
  apply (@X1_refused_requester_writes_nothing
           Example.staff_only (@SpecBase.base Example.staff_only)).
  intros event Hevent. vm_compute in Hevent. injection Hevent as <-. reflexivity.
Defined.


(** ** Validation comes before the permission check *)

Section MissingKeys.
Context {D : Django} {B : BaseSumulaView}.


End MissingKeys.


(** ** The sumula id of an update/close *)

Section SumulaId.
Context {D : Django} {B : BaseSumulaView}.
Variables (v : Variant) (request : Request) (db : DB) (j : json).

(** The payload is well formed and carries the value [j] under [id]. *)
Hypothesis Hdict : validate_request_data_dict (data request) = true.
Hypothesis Hfields : all_in ["id"; "name"; "description"] (data request) = Some true.
Hypothesis Hscores : v = Classificatoria -> validate_players_score db (data request) = true.
Hypothesis Hid : subscript (data request) "id" = Some j.

(** X4: an update/close whose [id] is falsy (0, null, an empty string) is
    answered 400 with the id-not-provided message, and one whose [id]
    names no row of the table is answered 400 with the not-found message;
    both with the store untouched and before the event is resolved and
    the permission checked. *)
Theorem X4_sumula_id_errors :
  (truthy j = false ->
   update_close v request db
   = (handle_400_error SUMULA_ID_NOT_PROVIDED_ERROR_MESSAGE, db))
  /\ (forall pk,
         truthy j = true ->
         pk_to_python j = Some pk ->
         Sumula_objects_filter_id_first v pk db = None ->
         update_close v request db
         = (handle_400_error SUMULA_NOT_FOUND_ERROR_MESSAGE, db)).
Proof.
  split.
  - intros Hfalsy. destruct v; unfold update_close,
      SumulaClassificatoriaView.put, SumulaImortalView.put;
      cbv zeta; rewrite Hdict, Hfields, ?(Hscores eq_refl), Hid, Hfalsy; reflexivity.
  - intros pk Htruthy Hpk Hnone. destruct v; unfold update_close,
      SumulaClassificatoriaView.put, SumulaImortalView.put;
      cbv zeta;
      rewrite Hdict, Hfields, ?(Hscores eq_refl), Hid, Htruthy, Hpk, Hnone;
      reflexivity.
Qed.

End SumulaId.

(** The outsider's update of the imortal sumula 100, which does not exist,
    is answered not found. *)
Lemma X4_outsider_update_unknown_sumula :
  update_close (D := Example.staff_only) (B := @SpecBase.base Example.staff_only)
    Imortal
    (Example.request_of "PUT" Example.outsider Cases.update_unknown_sumula) Example.db
  = (handle_400_error "Sumula não encontrada!", Example.db).
Proof.
  apply (proj2 (@X4_sumula_id_errors
                  Example.staff_only (@SpecBase.base Example.staff_only)
                  Imortal
                  (Example.request_of "PUT" Example.outsider Cases.update_unknown_sumula)
                  Example.db (JInt 100) eq_refl eq_refl
                  (fun H => ltac:(discriminate H)) eq_refl)
           100);
    reflexivity.
Defined.

(** ** What the answer of an update/close went through *)

Section UpdateOutcome.
Context {D : Django} {B : BaseSumulaView}.

(** X5: an update/close is answered 200 only when its [id] names a row of
    the table, the event resolves, the requester holds the change
    permission checked by the gate, the requester is the event admin or
    the staff validation returned a Staff record and the sumula is open
    or that record is a manager, and [update_sumula] returned; the store
    is then the one [update_sumula] left. *)
Theorem X5_update_close_success (v : Variant) (request : Request) (db : DB) :
  status (fst (update_close v request db)) = 200 ->
  exists j pk sumula event u,
    subscript (data request) "id" = Some j
    /\ truthy j = true
    /\ pk_to_python j = Some pk
    /\ Sumula_objects_filter_id_first v pk db = Some sumula
    /\ get_object request db = Returns event
    /\ HasSumulaPermission.has_object_permission request event = true
    /\ (email (user request) = admin_email event
        \/ exists staff,
            validate_if_staff_is_sumula_referee request v sumula event db
            = Returns staff
            /\ (active sumula = true \/ is_manager staff = true))
    /\ update_sumula request v sumula event db
       = (Returns u, snd (update_close v request db)).
Proof.
  destruct v; unfold update_close,
    SumulaClassificatoriaView.put, SumulaClassificatoriaView.permission_classes,
    SumulaImortalView.put, SumulaImortalView.permission_classes;
    cbv zeta.
  all: destruct (validate_request_data_dict (data request)); [| discriminate].
  all: cbn [negb].
  all: destruct (all_in ["id"; "name"; "description"] (data request)) as [[|] |];
    try discriminate.
  1: destruct (validate_players_score db (data request)); [| discriminate];
    cbn [negb].
  all: destruct (subscript (data request) "id") as [j |]; [| discriminate].
  all: destruct (truthy j) eqn:Htruthy; [| discriminate]; cbn [negb].
  all: destruct (pk_to_python j) as [pk |] eqn:Hpk; [| discriminate].
  all: match goal with
       | |- context [Sumula_objects_filter_id_first ?v ?k ?d] =>
           destruct (Sumula_objects_filter_id_first v k d) as [sumula |] eqn:Hsumula;
           [| discriminate]
       end.
  all: destruct (get_object request db) as [event | e] eqn:Hevent; [| discriminate].
  all: rewrite check_sumula_permissions.
  all: destruct (HasSumulaPermission.has_object_permission request event) eqn:Hgate;
    [| discriminate]; cbn [negb].
  all: match goal with
       | |- context [update_sumula ?r ?v ?s ?ev ?d] =>
           destruct (update_sumula r v s ev d) as [[u | e] db'] eqn:Hupdate
       end.
  all: destruct (email (user request) =? admin_email event)%string eqn:Hadmin;
    cbn [negb].
  all: try match goal with
           | |- context [validate_if_staff_is_sumula_referee ?r ?v ?s ?ev ?d] =>
               destruct (validate_if_staff_is_sumula_referee r v s ev d)
                 as [staff | e'] eqn:Hstaff;
               [destruct (active sumula) eqn:Hactive;
                destruct (is_manager staff) eqn:Hmanager; cbn [negb andb] |]
           end.
  all: cbn [fst snd status handle_400_error OK]; intros Hok; try discriminate.
  all: exists j, pk, sumula, event, u; repeat split; try assumption.
  all: try (left; now apply String.eqb_eq).
  all: right; exists staff; split; [assumption | tauto].
Qed.

(** X6: when an update/close is not answered 200, either nothing was
    written or [update_sumula] raised, and then the answer is 400 with its
    message and the store is whatever [update_sumula] left behind: the
    view adds no write of its own and undoes none. *)
Theorem X6_update_close_failure (v : Variant) (request : Request) (db : DB) :
  status (fst (update_close v request db)) <> 200 ->
  snd (update_close v request db) = db
  \/ exists sumula event e,
      update_sumula request v sumula event db
      = (Raises e, snd (update_close v request db))
      /\ fst (update_close v request db) = handle_400_error e.
Proof.
  destruct v; unfold update_close,
    SumulaClassificatoriaView.put, SumulaImortalView.put;
    cbv zeta;
    repeat match goal with
           | |- context [update_sumula request ?v ?s ?ev db] =>
               destruct (update_sumula request v s ev db) as [[u | e] db'] eqn:Hupdate
           | |- context [match ?x with _ => _ end] => destruct x
           end;
    cbn [fst snd status handle_400_error permission_denied server_error OK];
    intros Hfailed; try congruence; try (now left).
  all: right; do 3 eexists; split; [exact Hupdate | reflexivity].
Qed.

End UpdateOutcome.

(** The monitor's close of the open sumula of the example went through
    the gate of the event it names. *)
Lemma X5_monitor_close_passed_the_gate :
  exists event,
    SpecBase.get_object (Example.request_of "PUT" Example.monitor Example.close_data)
      Example.db = Returns event
    /\ HasSumulaPermission.has_object_permission (D := Example.staff_only)
         (Example.request_of "PUT" Example.monitor Example.close_data) event = true.
Proof.
  destruct (@X5_update_close_success
              Example.staff_only (@SpecBase.base Example.staff_only)
              Classificatoria
              (Example.request_of "PUT" Example.monitor Example.close_data)
              Example.db eq_refl)
    as (j & pk & sumula & event & u & _ & _ & _ & _ & Hevent & Hgate & _).
  exists event. split; assumption.
Defined.

(** The monitor's edit of the closed sumula of the example fails without
    a write. *)
Lemma X6_monitor_edit_of_closed_sumula :
  let result :=
    update_close (D := Example.staff_only) (B := @SpecBase.base Example.staff_only)
      Classificatoria
      (Example.request_of "PUT" Example.monitor Example.edit_closed_data) Example.db in
  snd result = Example.db
  \/ exists sumula event e,
      SpecBase.update_sumula (D := Example.staff_only)
        (Example.request_of "PUT" Example.monitor Example.edit_closed_data)
        Classificatoria sumula event Example.db
      = (Raises e, snd result)
      /\ fst result = handle_400_error e.
Proof.
  apply (@X6_update_close_failure
           Example.staff_only (@SpecBase.base Example.staff_only)).
  vm_compute. discriminate.
Defined.

(** ** Create *)

Lemma next_id_above (ids : list Z) (x : Z) : In x ids -> x < next_id ids.
Proof.
  unfold next_id. induction ids as [| y rest IH]; [contradiction |].
  cbn [fold_right]. intros [-> | Hin]; [lia |].
  specialize (IH Hin). lia.
Qed.

(** A row appended under the next key is the one a lookup of that key
    finds. *)
Lemma find_created (rows : list Sumula) (row : Sumula) :
  sumula_id row = next_id (map sumula_id rows) ->
  find (fun s => sumula_id s =? sumula_id row) (rows ++ [row]) = Some row.
Proof.
  intros Hkey.
  assert (Hold : forall s, In s rows -> (sumula_id s =? sumula_id row) = false).
  { intros s Hs. apply Z.eqb_neq.
    pose proof (next_id_above (map sumula_id rows) (sumula_id s) (in_map _ _ _ Hs)).
    lia. }
  clear Hkey. induction rows as [| s rest IH].
  - cbn. now rewrite Z.eqb_refl.
  - cbn [app find]. rewrite (Hold s (or_introl eq_refl)).
    apply IH. intros s' Hs'. apply Hold. now right.
Qed.

Section CreateOutcome.
Context {D : Django} {B : BaseSumulaView}.
Variables (v : Variant) (request : Request) (db : DB).
Variables (jn players : json) (nm : string) (event : Event).

(** The payload passed the validations, carries a name and players, and
    names an existing event on which the requester holds the add
    permission. *)
Hypothesis Hdict : validate_request_data_dict (data request) = true.
Hypothesis Hname : subscript (data request) "name" = Some jn.
Hypothesis Hplayers : subscript (data request) "players" = Some players.
Hypothesis Hvalid_players : validate_players db (data request) = true.
Hypothesis Hvalid_referees : validate_referees db (data request) = true.
Hypothesis Hevent : get_object request db = Returns event.
Hypothesis Hgate : HasSumulaPermission.has_object_permission request event = true.
Hypothesis Hnm : char_to_python jn = Some nm.

(** The row of the new sumula and the store that holds it. *)
Let row : Sumula :=
  {| sumula_id := next_id (map sumula_id (sumulas v db));
     sumula_event := event_id event;
     name := nm;
     active := true |}.
Let db1 : DB := set_sumulas v (sumulas v db ++ [row]) db.

Lemma create_entered :
  create v request db =
  match create_players_score players v row event db1 with
  | (Raises e, db2) => (handle_400_error e, db2)
  | (Returns _, db2) =>
      match subscript (data request) "referees" with
      | None => (server_error, db2)
      | Some referees =>
          match add_referees v row event referees db2 with
          | (Raises _, db3) => (server_error, db3)
          | (Returns _, db3) => (CREATED (SumulaVariantSerializer v db3 row), db3)
          end
      end
  end.
Proof.
  assert (Hin : py_in "name" (data request) = Some true).
  { unfold subscript in Hname. unfold py_in.
    destruct (data request); try discriminate. now rewrite Hname. }
  destruct v; unfold create;
    [unfold SumulaClassificatoriaView.post, SumulaClassificatoriaView.permission_classes
    | unfold SumulaImortalView.post, SumulaImortalView.permission_classes];
    cbv zeta;
    rewrite Hdict, Hin, Hvalid_players, Hvalid_referees, Hevent;
    rewrite check_sumula_permissions, Hgate, Hname, Hplayers, Hnm;
    reflexivity.
Qed.

(** X7: the create hands [create_players_score] a store that already holds
    the new sumula row, under a key no row of the table had; when
    [create_players_score] raises, the answer is 400 with its message and
    the store is the one it left: the view removes nothing. *)
Theorem X7_create_failure_keeps_store (e : string) (db2 : DB) :
  create_players_score players v row event db1 = (Raises e, db2) ->
  create v request db = (handle_400_error e, db2)
  /\ Sumula_objects_filter_id_first v (sumula_id row) db1 = Some row
  /\ ~ In (sumula_id row) (map sumula_id (sumulas v db)).
Proof.
  intros Hraised. split; [| split].
  - now rewrite create_entered, Hraised.
  - unfold Sumula_objects_filter_id_first. subst db1.
    rewrite sumulas_set_sumulas. now apply find_created.
  - intros Hin. apply next_id_above in Hin. cbn [sumula_id row] in Hin. lia.
Qed.

(** X8: a payload without the [referees] key that the validations let
    through is answered 500, the uncaught KeyError of the subscript, once
    [create_players_score] has returned. *)
Theorem X8_create_without_referees_key (u : unit) (db2 : DB) :
  subscript (data request) "referees" = None ->
  create_players_score players v row event db1 = (Returns u, db2) ->
  fst (create v request db) = server_error.
Proof.
  intros Hmissing Hreturned. now rewrite create_entered, Hreturned, Hmissing.
Qed.

End CreateOutcome.

(** The create of the example with an unknown player: the answer carries
    the message of [create_players_score]. *)
Lemma X7_create_with_unknown_player :
  fst (create (D := Example.staff_only) (B := @SpecBase.base Example.staff_only)
         Classificatoria
         (Example.request_of "POST" Example.monitor Example.create_data_unknown_player)
         Example.db)
  = handle_400_error "Jogador não encontrado!".
Proof.
  refine (f_equal fst
            (proj1 (@X7_create_failure_keeps_store
                      Example.staff_only (@SpecBase.base Example.staff_only)
                      Classificatoria
                      (Example.request_of "POST" Example.monitor
                         Example.create_data_unknown_player)
                      Example.db (JStr "chave C")
                      (JList [Example.entry 1; Example.entry 99]) "chave C"
                      Example.event
                      eq_refl eq_refl eq_refl eq_refl eq_refl eq_refl eq_refl eq_refl
                      "Jogador não encontrado!"
                      (set_sumulas Classificatoria
                         (sumulas Classificatoria Example.db
                          ++ [{| sumula_id := 3; sumula_event := 1;
                                 name := "chave C"; active := true |}])
                         Example.db)
                      eq_refl))).
Defined.

(** With a referee validation that accepts everything, the create of the
    example without the referees key is answered 500. *)
Lemma X8_create_without_referees :
  fst (create (D := Example.staff_only)
         (B := with_validate_referees (fun _ _ => true)
                 (@SpecBase.base Example.staff_only))
         Classificatoria
         (Example.request_of "POST" Example.monitor Cases.create_without_referees)
         Example.db)
  = server_error.
Proof.
  apply (@X8_create_without_referees_key
           Example.staff_only
           (with_validate_referees (fun _ _ => true) (@SpecBase.base Example.staff_only))
           Classificatoria
           (Example.request_of "POST" Example.monitor Cases.create_without_referees)
           Example.db (JStr "chave C") (JList [Example.entry 1]) "chave C"
           Example.event
           eq_refl eq_refl eq_refl eq_refl eq_refl eq_refl eq_refl eq_refl
           tt
           (snd (SpecBase.create_players_score (D := Example.staff_only)
                   (JList [Example.entry 1]) Classificatoria
                   {| sumula_id := 3; sumula_event := 1;
                      name := "chave C"; active := true |}
                   Example.event
                   (set_sumulas Classificatoria
                      (sumulas Classificatoria Example.db
                       ++ [{| sumula_id := 3; sumula_event := 1;
                              name := "chave C"; active := true |}])
                      Example.db))));
    reflexivity.
Defined.

(** ** Add referee: what it writes *)

Section AddRefereeWrites.
Context {D : Django} {B : BaseSumulaView}.

(** Everything a 200 answer of the view went through. *)
Lemma add_referee_success_inv (request : Request) (db : DB) :
  status (fst (AddRefereeToSumulaView.put request db)) = 200 ->
  exists event staff j flag pk sumula,
    get_object request db = Returns event
    /\ Staff_objects_filter_first (user request) event db = Some staff
    /\ py_get (data request) "sumula_id" = Some j
    /\ pk_to_python j = Some pk
    /\ py_get (data request) "is_imortal" = Some flag
    /\ Sumula_objects_filter_id_first
         (if truthy flag then Imortal else Classificatoria) pk db = Some sumula
    /\ referee_all (if truthy flag then Imortal else Classificatoria) sumula db = []
    /\ AddRefereeToSumulaView.put request db
       = (OK JNull,
          set_referees (if truthy flag then Imortal else Classificatoria)
            (referees (if truthy flag then Imortal else Classificatoria) db
             ++ [(sumula_id sumula, staff_id staff)])
            db).
Proof.
  unfold AddRefereeToSumulaView.put. cbv zeta.
  destruct (validate_request_data_dict (data request)); [| discriminate].
  cbn [negb].
  destruct (all_in ["sumula_id"; "is_imortal"] (data request)) as [[|]|];
    try discriminate.
  destruct (py_get (data request) "sumula_id") as [j |]; [| discriminate].
  destruct (truthy j); [| discriminate]. cbn [negb].
  destruct (get_object request db) as [event | e]; [| discriminate].
  destruct (check_object_permissions _ request event); [| discriminate].
  cbn [negb].
  destruct (Staff_objects_filter_first (user request) event db) as [staff |] eqn:Hstaff;
    [| discriminate].
  destruct (py_get (data request) "is_imortal") as [flag |]; [| discriminate].
  destruct (pk_to_python j) as [pk |] eqn:Hpk; [| discriminate].
  destruct (Sumula_objects_filter_id_first _ pk db) as [sumula |] eqn:Hsumula;
    [| discriminate].
  destruct (referee_all _ sumula db) as [| r others] eqn:Hnone; [| discriminate].
  intros _. exists event, staff, j, flag, pk, sumula.
  repeat split; try assumption; try reflexivity.
  cbn [List.length Z.of_nat Z.ltb Z.compare].
  now destruct (referee_all_after_add _ _ staff _ Hnone) as [-> _].
Qed.

(** X9: whatever the request, add-referee either leaves the store as it
    was or adds one row to the referee relation of the table the flag
    selects, linking the sumula found under the given id, which had no
    referee, to the Staff record of the requester for the event: it
    never attaches a third party and never writes another table. *)
Theorem X9_add_referee_only_write (request : Request) (db : DB) :
  snd (AddRefereeToSumulaView.put request db) = db
  \/ exists event staff j flag pk sumula,
      get_object request db = Returns event
      /\ Staff_objects_filter_first (user request) event db = Some staff
      /\ py_get (data request) "sumula_id" = Some j
      /\ pk_to_python j = Some pk
      /\ py_get (data request) "is_imortal" = Some flag
      /\ Sumula_objects_filter_id_first
           (if truthy flag then Imortal else Classificatoria) pk db = Some sumula
      /\ referee_all (if truthy flag then Imortal else Classificatoria) sumula db = []
      /\ snd (AddRefereeToSumulaView.put request db)
         = set_referees (if truthy flag then Imortal else Classificatoria)
             (referees (if truthy flag then Imortal else Classificatoria) db
              ++ [(sumula_id sumula, staff_id staff)])
             db.
Proof.
  destruct (Z.eq_dec (status (fst (AddRefereeToSumulaView.put request db))) 200)
    as [Hok | Hfailed].
  - right.
    destruct (add_referee_success_inv request db Hok)
      as (event & staff & j & flag & pk & sumula
          & Hevent & Hstaff & Hj & Hpk & Hflag & Hsumula & Hnone & Hput).
    exists event, staff, j, flag, pk, sumula.
    rewrite Hput. repeat split; assumption || reflexivity.
  - left. now apply add_referee_failure_writes_nothing.
Qed.

(** X10: once an add-referee was answered 200, a second add-referee on the
    same sumula (the same [sumula_id] and [is_imortal] values), by any
    requester, is not answered 200 and leaves the store as the first one
    left it. *)
Theorem X10_second_add_referee_fails (first second : Request) (db : DB) :
  status (fst (AddRefereeToSumulaView.put first db)) = 200 ->
  py_get (data second) "sumula_id" = py_get (data first) "sumula_id" ->
  py_get (data second) "is_imortal" = py_get (data first) "is_imortal" ->
  let db' := snd (AddRefereeToSumulaView.put first db) in
  status (fst (AddRefereeToSumulaView.put second db')) <> 200
  /\ snd (AddRefereeToSumulaView.put second db') = db'.
Proof.
  intros Hfirst Hsame_id Hsame_flag db'.
  assert (Hfails : status (fst (AddRefereeToSumulaView.put second db')) <> 200).
  { intros Hsecond.
    destruct (add_referee_success_inv first db Hfirst)
      as (event & staff & j & flag & pk & sumula
          & _ & _ & Hj & Hpk & Hflag & Hsumula & Hnone & Hput).
    destruct (add_referee_success_inv second db' Hsecond)
      as (event2 & staff2 & j2 & flag2 & pk2 & sumula2
          & _ & _ & Hj2 & Hpk2 & Hflag2 & Hsumula2 & Hnone2 & _).
    rewrite Hsame_id, Hj in Hj2. injection Hj2 as <-.
    rewrite Hsame_flag, Hflag in Hflag2. injection Hflag2 as <-.
    rewrite Hpk in Hpk2. injection Hpk2 as <-.
    subst db'. rewrite Hput in Hsumula2, Hnone2. cbn [snd] in Hsumula2, Hnone2.
    unfold Sumula_objects_filter_id_first in Hsumula2.
    rewrite sumulas_set_referees in Hsumula2.
    unfold Sumula_objects_filter_id_first in Hsumula.
    rewrite Hsumula in Hsumula2. injection Hsumula2 as <-.
    destruct (referee_all_after_add _ _ staff _ Hnone) as [Hadd Hall].
    rewrite <- Hadd, Hall in Hnone2. discriminate. }
  split; [exact Hfails | now apply add_referee_failure_writes_nothing].
Qed.

End AddRefereeWrites.

(** After the monitor of the example claimed the open sumula 1, the
    manager's add-referee on it fails. *)
Lemma X10_manager_after_monitor :
  status (fst (AddRefereeToSumulaView.put (D := Example.staff_only)
                 (B := @SpecBase.base Example.staff_only)
                 (Example.request_of "PUT" Example.manager (Example.add_referee_data 1))
                 (snd (AddRefereeToSumulaView.put (D := Example.staff_only)
                         (B := @SpecBase.base Example.staff_only)
                         (Example.request_of "PUT" Example.monitor
                            (Example.add_referee_data 1))
                         Example.db))))
  <> 200.
Proof.
  apply (proj1 (@X10_second_add_referee_fails
                  Example.staff_only (@SpecBase.base Example.staff_only)
                  (Example.request_of "PUT" Example.monitor (Example.add_referee_data 1))
                  (Example.request_of "PUT" Example.manager (Example.add_referee_data 1))
                  Example.db eq_refl eq_refl eq_refl)).
Defined.

(** ** The player view: its entries and its successes *)

(** Each score the query keeps contributes exactly one sumula. *)
Lemma sumulas_of_length (v : Variant) (player : Player) (db : DB) :
  List.length
    (GetSumulaForPlayer.sumulas_of v (PlayerScore_objects_filter_active v player db) db)
  = List.length (PlayerScore_objects_filter_active v player db).
Proof.
  unfold PlayerScore_objects_filter_active, GetSumulaForPlayer.sumulas_of.
  induction (player_scores db) as [| ps rest IH]; [reflexivity |].
  cbn [filter].
  destruct (score_player ps =? player_id player); cbn [andb]; [| exact IH].
  destruct (sumula_fk v ps) as [pk |] eqn:Hfk; [| exact IH].
  destruct (Sumula_objects_filter_id_first v pk db) as [s |] eqn:Hfind; [| exact IH].
  destruct (active s); [| exact IH].
  cbn [flat_map]. rewrite Hfk, Hfind. cbn [app List.length]. now rewrite IH.
Qed.

Section PlayerEntries.
Context {D : Django} {B : BaseSumulaView}.

Lemma player_view_resolved (request : Request) (db : DB) (event : Event)
    (player : Player) :
  get_object request db = Returns event ->
  GetSumulaForPlayerPermission.has_object_permission request event = true ->
  Player_objects_filter_first (user request) event db = Some player ->
  let variant := if is_imortal player then Imortal else Classificatoria in
  GetSumulaForPlayer.get request db =
  match PlayerScore_objects_filter_active variant player db with
  | [] => (handle_400_error "Jogador não possui nenhuma sumula associada!", db)
  | player_scores =>
      (OK (JList (map (SumulaForPlayerSerializer variant db)
                      (GetSumulaForPlayer.sumulas_of variant player_scores db))), db)
  end.
Proof.
  intros Hevent Hgate Hplayer.
  unfold GetSumulaForPlayer.get, GetSumulaForPlayer.permission_classes.
  rewrite Hevent, check_player_permissions, Hgate, Hplayer. cbn [negb].
  now destruct (is_imortal player).
Qed.

(** X11: the list the player view answers has one entry per score row of
    the player on an active sumula of the player's table, so a sumula
    holding two scores of the player is listed twice. *)
Theorem X11_player_view_one_entry_per_score (request : Request) (db : DB)
    (event : Event) (player : Player) :
  get_object request db = Returns event ->
  GetSumulaForPlayerPermission.has_object_permission request event = true ->
  Player_objects_filter_first (user request) event db = Some player ->
  let variant := if is_imortal player then Imortal else Classificatoria in
  PlayerScore_objects_filter_active variant player db <> [] ->
  exists items,
    fst (GetSumulaForPlayer.get request db) = OK (JList items)
    /\ List.length items
       = List.length (PlayerScore_objects_filter_active variant player db).
Proof.
  intros Hevent Hgate Hplayer variant Hscores.
  rewrite (player_view_resolved _ _ Hevent Hgate Hplayer). fold variant.
  pose proof (sumulas_of_length variant player db) as Hlength.
  destruct (PlayerScore_objects_filter_active variant player db) as [| ps rest];
    [congruence |].
  eexists. split; [reflexivity |]. now rewrite length_map.
Qed.

(** X12: the player view answers 200 only to a GET of a requester who
    holds the view permission on the event, has a Player record for the
    event and has at least one score on an active sumula of the table of
    that record's eligibility class. *)
Theorem X12_player_view_success (request : Request) (db : DB) :
  status (fst (GetSumulaForPlayer.get request db)) = 200 ->
  exists event player,
    get_object request db = Returns event
    /\ method request = "GET"
    /\ has_perm (user request) "api.view_event" event = true
    /\ Player_objects_filter_first (user request) event db = Some player
    /\ PlayerScore_objects_filter_active
         (if is_imortal player then Imortal else Classificatoria) player db <> [].
Proof.
  unfold GetSumulaForPlayer.get, GetSumulaForPlayer.permission_classes.
  destruct (get_object request db) as [event | e]; [| discriminate].
  rewrite check_player_permissions.
  unfold GetSumulaForPlayerPermission.has_object_permission.
  destruct (method request =? "GET")%string eqn:Hmethod; [| discriminate].
  destruct (has_perm (user request) "api.view_event" event) eqn:Hperm;
    [| discriminate].
  cbn [negb].
  destruct (Player_objects_filter_first (user request) event db) as [player |] eqn:Hplayer;
    [| discriminate].
  intros Hok. exists event, player.
  split; [reflexivity |]. split; [now apply String.eqb_eq |].
  split; [assumption |]. split; [assumption |].
  destruct (is_imortal player);
    destruct (PlayerScore_objects_filter_active _ player db); discriminate.
Qed.

End PlayerEntries.

(** The first player of the example has one score on an active sumula and
    sees one entry. *)
Lemma X11_player_view_of_example :
  exists items,
    fst (GetSumulaForPlayer.get (D := Example.everyone)
           (B := @SpecBase.base Example.everyone)
           (Example.request_of "GET" Example.player_user1 JNull) Example.db)
    = OK (JList items)
    /\ List.length items = 1%nat.
Proof.
  destruct (@X11_player_view_one_entry_per_score
              Example.everyone (@SpecBase.base Example.everyone)
              (Example.request_of "GET" Example.player_user1 JNull)
              Example.db Example.event Example.player1 eq_refl eq_refl eq_refl)
    as (items & Hanswer & Hlength).
  - vm_compute. discriminate.
  - exists items. split; [exact Hanswer | exact Hlength].
Defined.

(** The 200 answer to the first player of the example came from a Player
    record. *)
Lemma X12_player_view_of_example :
  exists player,
    Player_objects_filter_first Example.player_user1 Example.event Example.db
    = Some player.
Proof.
  destruct (@X12_player_view_success
              Example.everyone (@SpecBase.base Example.everyone)
              (Example.request_of "GET" Example.player_user1 JNull)
              Example.db eq_refl)
    as (event & player & Hevent & _ & _ & Hplayer & _).
  vm_compute in Hevent. injection Hevent as <-.
  exists player. exact Hplayer.
Defined.

(** ** The admin form *)

Section UserFormFields.
Variable Rest : Type.

Lemma relaxed_not_required (k : string) (fields : list (string * UserForm.Field Rest))
    (f : UserForm.Field Rest) :
  UserForm.field_get k
    (map (fun kf => (fst kf, UserForm.set_required false (snd kf))) fields) = Some f ->
  UserForm.required f = false.
Proof.
  induction fields as [| [k' f'] others IH]; [discriminate |].
  cbn [map UserForm.field_get fst snd].
  destruct (k' =? k)%string; [now intros [= <-] | exact IH].
Qed.

(** X13: the admin form of users fails with a KeyError when the model form
    has no [email] field; otherwise it keeps the fields, their order and
    everything but the [required] flags, and afterwards a field is
    required exactly when it is [email]. *)
Theorem X13_user_form_requires_email_only
    (fields : list (string * UserForm.Field Rest)) :
  (UserForm.field_get "email" fields = None -> UserForm.init fields = None)
  /\ (UserForm.field_get "email" fields <> None ->
      exists fields',
        UserForm.init fields = Some fields'
        /\ map fst fields' = map fst fields
        /\ map (fun kf => UserForm.rest (snd kf)) fields'
           = map (fun kf => UserForm.rest (snd kf)) fields
        /\ forall k f,
            UserForm.field_get k fields' = Some f ->
            UserForm.required f = (k =? "email")%string).
Proof.
  unfold UserForm.init. cbv zeta.
  induction fields as [| [k' f'] others [IHnone IHsome]].
  - split; [reflexivity | intros Hemail; now contradiction Hemail].
  - cbn [map UserForm.field_get UserForm.field_set_required fst snd].
    destruct (k' =? "email")%string eqn:Hk'.
    + split; [discriminate |]. intros _. eexists. split; [reflexivity |].
      cbn [map fst snd UserForm.rest UserForm.set_required].
      rewrite !map_map. cbn [fst snd UserForm.rest UserForm.set_required].
      split; [reflexivity |]. split; [reflexivity |].
      intros k f. cbn [UserForm.field_get].
      apply String.eqb_eq in Hk'. subst k'.
      destruct ("email" =? k)%string eqn:Hk.
      * intros [= <-]. apply String.eqb_eq in Hk. subst k. reflexivity.
      * intros Hf. rewrite String.eqb_sym, Hk. exact (relaxed_not_required _ _ Hf).
    + split.
      * intros Hnone. now rewrite (IHnone Hnone).
      * intros Hsome. destruct (IHsome Hsome) as (others' & -> & Hkeys & Hrest & Hflags).
        eexists. split; [reflexivity |].
        cbn [map fst snd UserForm.rest UserForm.set_required].
        rewrite Hkeys, Hrest. split; [reflexivity |]. split; [reflexivity |].
        intros k f. cbn [UserForm.field_get].
        destruct (k' =? k)%string eqn:Hk.
        -- intros [= <-]. apply String.eqb_eq in Hk. subst k.
           cbn [UserForm.required UserForm.set_required]. now rewrite Hk'.
        -- apply Hflags.
Qed.

End UserFormFields.

(** The form of the example: only [email] is required afterwards, also
    not [username], which was. *)
Lemma X13_user_form_of_example :
  exists fields',
    UserForm.init Cases.user_fields = Some fields'
    /\ map fst fields' = ["first_name"; "email"; "username"].
Proof.
  destruct (proj2 (X13_user_form_requires_email_only Cases.user_fields))
    as (fields' & Hinit & Hkeys & _).
  - vm_compute. discriminate.
  - exists fields'. split; [exact Hinit | exact Hkeys].
Defined.

(** ** The name generator of the player tests *)

(** X14: for every value [random.randint(0, 6)] can return, the name
    lookup is in range and yields one of the seven names, and every one of
    the seven names is the answer for some such value. *)
Theorem X14_generate_random_name_in_range :
  (forall r,
      0 <= r <= 6 ->
      exists n,
        PlayersViewTest.generate_random_name r = Some n
        /\ In n PlayersViewTest.names)
  /\ (forall n,
         In n PlayersViewTest.names ->
         exists r, 0 <= r <= 6 /\ PlayersViewTest.generate_random_name r = Some n).
Proof.
  split.
  - intros r Hr.
    assert (Hcases : r = 0 \/ r = 1 \/ r = 2 \/ r = 3 \/ r = 4 \/ r = 5 \/ r = 6) by lia.
    repeat destruct Hcases as [-> | Hcases]; try subst r;
      eexists; (split; [reflexivity | cbn; tauto]).
  - intros n Hn. cbn in Hn.
    repeat destruct Hn as [<- | Hn]; try contradiction.
    + exists 0. split; [lia | reflexivity].
    + exists 1. split; [lia | reflexivity].
    + exists 2. split; [lia | reflexivity].
    + exists 3. split; [lia | reflexivity].
    + exists 4. split; [lia | reflexivity].
    + exists 5. split; [lia | reflexivity].
    + exists 6. split; [lia | reflexivity].
Qed.

(** The draw 3 yields a name. *)
Lemma X14_draw_three :
  exists n, PlayersViewTest.generate_random_name 3 = Some n.
Proof.
  destruct (proj1 X14_generate_random_name_in_range 3) as (n & Hname & _).
  - lia.
  - exists n. exact Hname.
Defined.

(** ** What a 201 answer of a create went through *)

Section CreateSuccess.
Context {D : Django} {B : BaseSumulaView}.

(** X15: a create is answered 201 only when the payload carries a name,
    players and referees, the event resolves, the requester holds the add
    permission checked by the gate, and [create_players_score] and then
    [add_referees] returned, both called with the new row, which is
    active and has the next key of its table; the store is then the one
    [add_referees] left and the body is the serialization of that row. *)
Theorem X15_create_success (v : Variant) (request : Request) (db : DB) :
  status (fst (create v request db)) = 201 ->
  exists jn nm players referees event u u' db2,
    subscript (data request) "name" = Some jn
    /\ char_to_python jn = Some nm
    /\ subscript (data request) "players" = Some players
    /\ subscript (data request) "referees" = Some referees
    /\ get_object request db = Returns event
    /\ HasSumulaPermission.has_object_permission request event = true
    /\ let row := {| sumula_id := next_id (map sumula_id (sumulas v db));
                     sumula_event := event_id event;
                     name := nm;
                     active := true |} in
       create_players_score players v row event
         (set_sumulas v (sumulas v db ++ [row]) db) = (Returns u, db2)
       /\ add_referees v row event referees db2
          = (Returns u', snd (create v request db))
       /\ fst (create v request db)
          = CREATED (SumulaVariantSerializer v (snd (create v request db)) row).
Proof.
  destruct v; unfold create,
    SumulaClassificatoriaView.post, SumulaClassificatoriaView.permission_classes,
    SumulaImortalView.post, SumulaImortalView.permission_classes,
    Sumula_objects_create;
    cbv beta iota zeta.
  all: destruct (validate_request_data_dict (data request)); [| discriminate].
  all: cbn [negb].
  all: destruct (py_in "name" (data request)) as [[|] |]; try discriminate.
  all: destruct (validate_players db (data request)); [| discriminate]; cbn [negb].
  all: destruct (validate_referees db (data request)); [| discriminate]; cbn [negb].
  all: destruct (get_object request db) as [event | e]; [| discriminate].
  all: rewrite check_sumula_permissions.
  all: destruct (HasSumulaPermission.has_object_permission request event) eqn:Hgate;
    [| discriminate]; cbn [negb].
  all: destruct (subscript (data request) "name") as [jn |]; try discriminate.
  all: destruct (subscript (data request) "players") as [players |]; try discriminate.
  all: destruct (char_to_python jn) as [nm |] eqn:Hnm; [| discriminate].
  all: match goal with
       | |- context [create_players_score ?p ?v ?s ?ev ?d] =>
           destruct (create_players_score p v s ev d) as [[u | e] db2] eqn:Hscores;
           [| discriminate]
       end.
  all: destruct (subscript (data request) "referees") as [referees |];
    [| discriminate].
  all: match goal with
       | |- context [add_referees ?v ?s ?ev ?r ?d] =>
           destruct (add_referees v s ev r d) as [[u' | e] db3] eqn:Hreferees;
           [| discriminate]
       end.
  all: intros _; exists jn, nm, players, referees, event, u, u', db2.
  all: cbn [fst snd]; repeat split; assumption || reflexivity.
Qed.

End CreateSuccess.

(** The 201 answer to the create of the example went through the gate of
    the event it names. *)
Lemma X15_create_of_example :
  exists event,
    SpecBase.get_object (Example.request_of "POST" Example.monitor Example.create_data)
      Example.db = Returns event
    /\ HasSumulaPermission.has_object_permission (D := Example.staff_only)
         (Example.request_of "POST" Example.monitor Example.create_data) event = true.
Proof.
  destruct (@X15_create_success
              Example.staff_only (@SpecBase.base Example.staff_only)
              Classificatoria
              (Example.request_of "POST" Example.monitor Example.create_data)
              Example.db eq_refl)
    as (jn & nm & players & referees & event & u & u' & db2
        & _ & _ & _ & _ & Hevent & Hgate & _).
  exists event. split; assumption.
Defined.
